(** * mark-file-read: the mark store, its decorations and its persistence

    A shallow embedding of the VS Code extension in
    [src/MarkDecorationProvider.ts] (which holds the extension entry point
    with [FileDecorationsProvider], [saveMarks], [loadMarks] and the two
    commands, and the small class [MarkDecorationProvider]) and of the class
    [MarkManager].

    Conventions of the embedding.
    - A JavaScript string is a [string]; literals are kept byte for byte as
      they stand in the UTF-8 source.  Only equality, emptiness and
      concatenation of strings are used, and these do not depend on the
      encoding.
    - The global [Map<string, FileMark>] is a [gmap string FileMark].  The
      iteration order of a JavaScript [Map] is not represented.
    - [Date.now()] is an argument [now : Z] of the code that reads it.
    - Calls into the host (events fired, messages shown, file writes
      attempted) are appended to a log, oldest first.
    - [activate] only wires the pieces to the host (storage path, provider
      and command registration, colour configuration) and is not embedded;
      the callbacks it registers are, and a session is a list of them. *)

From Stdlib Require Import ZArith.
From stdpp Require Import gmap strings list fin_maps pretty.

Open Scope string_scope.
Open Scope Z_scope.

(** ** Data model *)

(** [enum FileMarkType]; [FileMarkType_value] is the string of each member. *)
Inductive FileMarkType : Set :=
| READ
| PARTIAL
| UNREAD.

Definition FileMarkType_value (t : FileMarkType) : string :=
  match t with
  | READ => "read"
  | PARTIAL => "partial"
  | UNREAD => "unread"
  end.

#[global] Instance FileMarkType_eq_dec : EqDecision FileMarkType.
Proof. solve_decision. Defined.

(** [interface FileMark]. *)
Record FileMark : Set := {
  type : FileMarkType;
  note : string;
  timestamp : Z
}.

#[global] Instance FileMark_eq_dec : EqDecision FileMark.
Proof. solve_decision. Defined.

(** A [vscode.Uri] handed in by the host; the extension reads its [fsPath]
    and nothing else. *)
Record Uri : Set := { fsPath : string }.

#[global] Instance Uri_eq_dec : EqDecision Uri.
Proof. solve_decision. Defined.

Record ThemeColor : Set := { id : string }.

(** [vscode.FileDecoration] with the three fields the providers fill. *)
Record FileDecoration : Set := {
  badge : string;
  tooltip : string;
  color : option ThemeColor
}.

(** Truthiness of a JavaScript string: every string but the empty one. *)
Definition truthy (s : string) : bool :=
  match s with
  | EmptyString => false
  | String _ _ => true
  end.

(** [note || ''] for [note : string | undefined]. *)
Definition note_or_empty (note : option string) : string :=
  match note with
  | Some s => if truthy s then s else ""
  | None => ""
  end.

(** ** The host and the file system *)

(** A parsed JSON document.  [JNum] is a number with an integer value,
    [JFrac] stands for any other number (its value is never needed). *)
#[local] Set Warnings "-register-all".
Inductive Json : Set :=
| JNull
| JBool (b : bool)
| JNum (z : Z)
| JFrac
| JStr (s : string)
| JArr (items : list Json)
| JObj (members : gmap string Json).
#[local] Set Warnings "register-all".

(** What a file holds: text that [JSON.parse] rejects with the error [err],
    or the text of a JSON document.  [JSON.stringify] and [JSON.parse] are
    the platform's; a file written from [JSON.stringify(v, null, 2)] is
    represented by the document of [v]. *)
Inductive FileData : Set :=
| NotJson (err : string)
| Doc (j : Json).

(** The disk: the files by path, and the condition under which the next
    write or read throws (disk full, permission denied, ...). *)
Record FileSystem : Set := {
  files : gmap string FileData;
  write_error : option string;
  read_error : option string
}.

(** The argument of [_onDidChangeFileDecorations.fire]: one Uri of the
    host's, or the array [markedUris] of the Uris [vscode.Uri.file(file)]
    built from the listed [file]s. *)
Inductive Payload : Set :=
| one_uri (uri : Uri)
| uris_of_files (files : list string).

(** Calls into the host, as they are logged. *)
Inductive HostCall : Set :=
| onDidChangeFileDecorations_fire (payload : Payload)
| showErrorMessage (message : string)
| showWarningMessage (message : string)
| fs_writeFileSync (file : string) (data : Json).

(** The module-level variables [fileMarks] and [storageFile], together with
    the part of the host the extension talks to. *)
Record World : Set := {
  fileMarks : gmap string FileMark;
  storageFile : option string;
  fs : FileSystem;
  activeTextEditor : option Uri;
  log : list HostCall
}.

Definition with_fileMarks (w : World) (marks : gmap string FileMark) : World :=
  {| fileMarks := marks; storageFile := storageFile w; fs := fs w;
     activeTextEditor := activeTextEditor w; log := log w |}.

Definition with_fs (w : World) (disk : FileSystem) : World :=
  {| fileMarks := fileMarks w; storageFile := storageFile w; fs := disk;
     activeTextEditor := activeTextEditor w; log := log w |}.

Definition call (w : World) (c : HostCall) : World :=
  {| fileMarks := fileMarks w; storageFile := storageFile w; fs := fs w;
     activeTextEditor := activeTextEditor w; log := log w ++ [c] |}.

(** [fs.existsSync], [fs.readFileSync] and [fs.writeFileSync]; [inl e] is the
    exception [e] thrown. *)
Definition existsSync (disk : FileSystem) (file : string) : bool :=
  bool_decide (is_Some (files disk !! file)).

Definition readFileSync (disk : FileSystem) (file : string) : string + FileData :=
  match read_error disk, files disk !! file with
  | Some e, _ => inl e
  | None, Some data => inr data
  | None, None =>
    inl ("Error: ENOENT: no such file or directory, open '" ++ file ++ "'")
  end.

Definition writeFileSync (disk : FileSystem) (file : string) (data : Json)
  : string + FileSystem :=
  match write_error disk with
  | Some e => inl e
  | None => inr {| files := <[file := Doc data]> (files disk);
                   write_error := write_error disk;
                   read_error := read_error disk |}
  end.

(** [JSON.parse] of what a file holds. *)
Definition JSON_parse (data : FileData) : string + Json :=
  match data with
  | NotJson err => inl err
  | Doc j => inr j
  end.

(** ** Plain objects used as dictionaries

    [saveMarks] copies the map into an object literal [{}] with
    [data[key] = value].  On such an object the key ["__proto__"] is not an
    ordinary property: the assignment runs the [__proto__] setter inherited
    from [Object.prototype], which, the value being an object, makes it the
    prototype of [data] and creates no own property.  Every other key
    creates or overwrites an own property (also ["constructor"] and the
    like, which merely shadow the inherited ones). *)
Record PlainObject : Set := {
  own : gmap string FileMark;
  prototype : option FileMark
}.

Definition empty_object : PlainObject :=
  {| own := ∅; prototype := None |}.

(** [data[key] = value] *)
Definition assign (data : PlainObject) (key : string) (value : FileMark)
  : PlainObject :=
  if String.eqb key "__proto__"
  then {| own := own data; prototype := Some value |}
  else {| own := <[key := value]> (own data); prototype := prototype data |}.

(** The document of one mark: its three fields. *)
Definition FileMark_json (m : FileMark) : Json :=
  JObj (<["type" := JStr (FileMarkType_value (type m))]>
        (<["note" := JStr (note m)]>
         (<["timestamp" := JNum (timestamp m)]> ∅))).

(** [JSON.stringify(data, null, 2)]: the own enumerable properties of
    [data]; what is reachable through the prototype only is left out. *)
Definition JSON_stringify (data : PlainObject) : Json :=
  JObj (FileMark_json <$> own data).

(** ** [class FileDecorationsProvider] *)

(** [updateDecorations(uri?)].  A Uri object is always truthy, so the test
    [if (uri)] asks whether the argument was given.  [fileMarks.keys()] is
    listed in the order of the finite map. *)
Definition updateDecorations (w : World) (uri : option Uri) : World :=
  match uri with
  | Some uri => call w (onDidChangeFileDecorations_fire (one_uri uri))
  | None =>
    let markedUris := (map_to_list (fileMarks w)).*1 in
    if (0 <? length markedUris)%nat
    then call w (onDidChangeFileDecorations_fire (uris_of_files markedUris))
    else w
  end.

(** [provideFileDecoration(uri)]; [None] is [undefined]. *)
Definition provideFileDecoration (marks : gmap string FileMark) (uri : Uri)
  : option FileDecoration :=
  let filePath := fsPath uri in
  match marks !! filePath with
  | None => None
  | Some mark =>
    let '(badge, tooltip, color) :=
      match type mark with
      | READ => ("✅", "已读", Some {| id := "fileMarker.read" |})
      | PARTIAL => ("🟠", "部分阅读", Some {| id := "fileMarker.partial" |})
      | UNREAD => ("❗", "未读", Some {| id := "fileMarker.unread" |})
      end in
    let tooltip :=
      if truthy (note mark) then tooltip ++ ": " ++ note mark else tooltip in
    Some {| badge := badge; tooltip := tooltip; color := color |}
  end.

(** ** Persistence *)

(** [storageFile] where the test [!storageFile] fails: the variable is set
    and is not the empty string. *)
Definition storage (w : World) : option string :=
  match storageFile w with
  | Some file => if truthy file then Some file else None
  | None => None
  end.

(** [saveMarks()] *)
Definition saveMarks (w : World) : World :=
  match storage w with
  | None => w
  | Some file =>
    let data :=
      map_fold (λ key value data, assign data key value)
               empty_object (fileMarks w) in
    let text := JSON_stringify data in
    let w := call w (fs_writeFileSync file text) in
    match writeFileSync (fs w) file text with
    | inr disk => with_fs w disk
    | inl e => call w (showErrorMessage ("无法保存文件标记: " ++ e))
    end
  end.

(** The values on which the unchecked cast [value as FileMark] is sound:
    objects with exactly the fields [type], [note] and [timestamp], holding
    a member of the enum, a string and an integer. *)
Definition FileMarkType_of (s : string) : option FileMarkType :=
  if String.eqb s "read" then Some READ
  else if String.eqb s "partial" then Some PARTIAL
  else if String.eqb s "unread" then Some UNREAD
  else None.

Definition as_FileMark (value : Json) : option FileMark :=
  match value with
  | JObj members =>
    match members !! "type", members !! "note", members !! "timestamp" with
    | Some (JStr t), Some (JStr n), Some (JNum z) =>
      if (size members =? 3)%nat
      then match FileMarkType_of t with
           | Some t => Some {| type := t; note := n; timestamp := z |}
           | None => None
           end
      else None
    | _, _, _ => None
    end
  | _ => None
  end.

(** [Object.entries(parsed)]; [None] when it throws, which it does on
    [null].  Numbers and booleans have no entries, an array has one per
    index and a string one per character (of one byte here, of one UTF-16
    unit in JavaScript: each is a string of length one either way). *)
Definition indexed {A} (l : list A) : list (string * A) :=
  imap (λ i x, (pretty i, x)) l.

Definition Object_entries (parsed : Json) : option (list (string * Json)) :=
  match parsed with
  | JNull => None
  | JBool _ | JNum _ | JFrac => Some []
  | JStr s =>
    Some (indexed ((λ c, JStr (String c EmptyString))
                     <$> String.list_ascii_of_string s))
  | JArr items => Some (indexed items)
  | JObj members => Some (map_to_list members)
  end.

(** The loop [entries.forEach(([key, value]) => fileMarks.set(key, value as
    FileMark))], from the store [marks]; [None] when some [value] is not a
    [FileMark], where the store would leave its declared type. *)
Definition set_entries (marks : gmap string FileMark)
    (entries : list (string * Json)) : option (gmap string FileMark) :=
  foldl (λ acc entry,
           match acc, as_FileMark entry.2 with
           | Some marks, Some mark => Some (<[entry.1 := mark]> marks)
           | _, _ => None
           end)
        (Some marks) entries.

(** [loadMarks()]; [None] as for [set_entries]. *)
Definition loadMarks (w : World) : option World :=
  match storage w with
  | None => Some w
  | Some file =>
    if negb (existsSync (fs w) file) then Some w
    else
      let failed e := Some (call w (showErrorMessage ("无法加载文件标记: " ++ e))) in
      match readFileSync (fs w) file with
      | inl e => failed e
      | inr data =>
        match JSON_parse data with
        | inl e => failed e
        | inr parsed =>
          let w := with_fileMarks w ∅ in
          match Object_entries parsed with
          | None =>
            Some (call w (showErrorMessage
              ("无法加载文件标记: "
               ++ "TypeError: Cannot convert undefined or null to object")))
          | Some entries =>
            with_fileMarks w <$> set_entries (fileMarks w) entries
          end
        end
      end
  end.

(** ** The commands *)

(** [class MarkAsQuickPickItem]; the icon is a [vscode.ThemeIcon], kept by
    its id. *)
Record MarkAsQuickPickItem : Set := {
  label : string;
  description : string;
  value : FileMarkType;
  iconPath : option string
}.

(** The three entries of [quickPick.items] of the command
    [fileMarker.markFile]. *)
Definition item_READ : MarkAsQuickPickItem :=
  {| label := "✅ 已读"; description := "标记为已完成阅读";
     value := READ; iconPath := Some "check" |}.

Definition item_PARTIAL : MarkAsQuickPickItem :=
  {| label := "🟠 部分阅读"; description := "标记为部分阅读";
     value := PARTIAL; iconPath := Some "warning" |}.

Definition item_UNREAD : MarkAsQuickPickItem :=
  {| label := "❗ 未读"; description := "标记为未阅读";
     value := UNREAD; iconPath := Some "error" |}.

Definition quickPick_items : list MarkAsQuickPickItem :=
  [item_READ; item_PARTIAL; item_UNREAD].

(** What a command callback hands back to the host (of type [any] there);
    of the JavaScript values only [undefined] and the booleans are named. *)
Inductive Returned : Set :=
| undefined
| boolean (b : bool).

(** [uri || vscode.window.activeTextEditor?.document.uri] *)
Definition target (w : World) (uri : option Uri) : option Uri :=
  match uri with
  | Some uri => Some uri
  | None => activeTextEditor w
  end.

(** The command [fileMarker.markFile] up to [quickPick.show()]: the second
    component is the [fileUri] that the handlers of the quick pick it opened
    have captured, if one was opened. *)
Definition markFileCommand (w : World) (uri : option Uri)
  : World * option Uri :=
  match target w uri with
  | None => (call w (showWarningMessage "未选择文件"), None)
  | Some fileUri => (w, Some fileUri)
  end.

(** The handler given to [quickPick.onDidAccept], for the quick pick opened
    on [fileUri]: [selected] is [quickPick.selectedItems[0]], [note] the
    answer of [showInputBox] ([None] when the box was dismissed), and [w]
    the state when the handler resumes after that answer, where [now] is
    read from the clock. *)
Definition onDidAccept (w : World) (fileUri : Uri)
    (selected : option MarkAsQuickPickItem) (note : option string) (now : Z)
  : World :=
  match selected with
  | None => w
  | Some selected =>
    let filePath := fsPath fileUri in
    let w := with_fileMarks w
               (<[filePath := {| type := value selected;
                                 note := note_or_empty note;
                                 timestamp := now |}]> (fileMarks w)) in
    let w := updateDecorations w (Some fileUri) in
    saveMarks w
  end.

(** The command [fileMarker.clearMark]. *)
Definition clearMarkCommand (w : World) (uri : option Uri)
  : Returned * World :=
  match target w uri with
  | None => (undefined, call w (showWarningMessage "未选择文件"))
  | Some fileUri =>
    let filePath := fsPath fileUri in
    if bool_decide (is_Some (fileMarks w !! filePath))
    then
      let w := with_fileMarks w (delete filePath (fileMarks w)) in
      let w := updateDecorations w (Some fileUri) in
      (undefined, saveMarks w)
    else (undefined, w)
  end.


(** ** Sessions

    The callbacks run one at a time, each to completion; a session is the
    list of the callbacks the host runs, in order. *)
Inductive Callback : Set :=
| MarkFile (uri : option Uri)
| Accept (fileUri : Uri) (selected : option MarkAsQuickPickItem)
         (note : option string) (now : Z)
| ClearMark (uri : option Uri).

Definition step (w : World) (c : Callback) : World :=
  match c with
  | MarkFile uri => (markFileCommand w uri).1
  | Accept fileUri selected note now => onDidAccept w fileUri selected note now
  | ClearMark uri => (clearMarkCommand w uri).2
  end.

Definition run (w : World) (session : list Callback) : World :=
  foldl step w session.

(** The callback writes a record for the path [p]. *)
Definition sets (p : string) (c : Callback) : bool :=
  match c with
  | Accept fileUri (Some _) _ _ => bool_decide (fsPath fileUri = p)
  | _ => false
  end.

(** The state of a fresh extension host: nothing marked, nothing logged. *)
Definition fresh (file : option string) (disk : FileSystem)
    (editor : option Uri) : World :=
  {| fileMarks := ∅; storageFile := file; fs := disk;
     activeTextEditor := editor; log := [] |}.

(** ** [class MarkManager] and [class MarkDecorationProvider]

    A second, smaller store: labels instead of kinds, no timestamp, no way
    to remove a mark.  The extension entry point does not use it. *)
Module MarkManager.

Record Mark : Set := {
  label : string;
  color : string;
  note : string
}.

(** The object [marks], an object literal used as a dictionary: its own
    properties and, once the key ["__proto__"] has been assigned, the mark
    that the inherited setter made its prototype ([None]: still
    [Object.prototype]). *)
Record t : Set := {
  own : gmap string Mark;
  prototype : option Mark
}.

Definition new : t := {| own := ∅; prototype := None |}.

Definition getLabelColor (label : string) : string :=
  if String.eqb label "✔️ Completed" then "#00ff00"
  else if String.eqb label "🕗 Halfway" then "#ff9900"
  else if String.eqb label "❌ Unread" then "#ff0000"
  else "#000000".

(** [setMark(filePath, label, note)] *)
Definition setMark (this : t) (filePath label : string)
    (note : option string) : t :=
  let mark := {| label := label; color := getLabelColor label;
                 note := note_or_empty note |} in
  if String.eqb filePath "__proto__"
  then {| own := own this; prototype := Some mark |}
  else {| own := <[filePath := mark]> (own this);
          prototype := prototype this |}.

(** What [this.marks[filePath]] can evaluate to. *)
Inductive Value : Set :=
| undefined
| object (mark : Mark)
| field (s : string)
| Object_prototype_function (name : string)
| Object_prototype.

(** The function-valued properties of [Object.prototype]. *)
Definition Object_prototype_functions : list string :=
  [ "constructor"; "hasOwnProperty"; "isPrototypeOf";
    "propertyIsEnumerable"; "toLocaleString"; "toString"; "valueOf";
    "__defineGetter__"; "__defineSetter__"; "__lookupGetter__";
    "__lookupSetter__" ].

(** [getMark(filePath)]: the own property, else the property of that name
    found along the prototype chain. *)
Definition getMark (this : t) (filePath : string) : Value :=
  if String.eqb filePath "__proto__"
  then match prototype this with
       | Some mark => object mark
       | None => Object_prototype
       end
  else
    match own this !! filePath with
    | Some mark => object mark
    | None =>
      let inherited :=
        if bool_decide (filePath ∈ Object_prototype_functions)
        then Object_prototype_function filePath
        else undefined in
      match prototype this with
      | Some mark =>
        if String.eqb filePath "label" then field (label mark)
        else if String.eqb filePath "color" then field (color mark)
        else if String.eqb filePath "note" then field (note mark)
        else inherited
      | None => inherited
      end
    end.

(** The decoration of [MarkDecorationProvider]; a field is [None] where
    the JavaScript object holds [undefined]. *)
Record Decoration : Set := {
  badge : option string;
  tooltip : option string;
  theme : ThemeColor
}.

(** [MarkDecorationProvider.provideFileDecoration(uri)].  Of the values
    [getMark] can give, [undefined] and the empty string are falsy;
    strings and the members of [Object.prototype] have no property
    [label] or [note]. *)
Definition provideFileDecoration (markManager : t) (uri : Uri)
  : option Decoration :=
  let theme := {| id := "editorGutter.modifiedBackground" |} in
  match getMark markManager (fsPath uri) with
  | undefined => None
  | object mark =>
    Some {| badge := Some (label mark);
            tooltip := Some (if truthy (note mark) then note mark
                             else label mark);
            theme := theme |}
  | field s =>
    if truthy s
    then Some {| badge := None; tooltip := None; theme := theme |}
    else None
  | Object_prototype_function _ | Object_prototype =>
    Some {| badge := None; tooltip := None; theme := theme |}
  end.

End MarkManager.

(** ** Observations and scenarios *)

(** The table of decorations, with the strings of the source. *)
Definition badge_of (t : FileMarkType) : string :=
  match t with READ => "✅" | PARTIAL => "🟠" | UNREAD => "❗" end.

Definition tooltip_base (t : FileMarkType) : string :=
  match t with READ => "已读" | PARTIAL => "部分阅读" | UNREAD => "未读" end.

Definition color_token (t : FileMarkType) : string :=
  match t with
  | READ => "fileMarker.read"
  | PARTIAL => "fileMarker.partial"
  | UNREAD => "fileMarker.unread"
  end.

Definition a_txt : Uri := {| fsPath := "/a.txt" |}.

Definition looks_good : FileMark :=
  {| type := READ; note := "looks good"; timestamp := 5 |}.

(** The document [saveMarks] hands to [fs.writeFileSync]. *)
Definition document_of (marks : gmap string FileMark) : Json :=
  JSON_stringify
    (map_fold (λ key value data, assign data key value) empty_object marks).

(** The payloads of the decoration events in a log. *)
Definition fired (calls : list HostCall) : list Payload :=
  omap (λ c, match c with
             | onDidChangeFileDecorations_fire payload => Some payload
             | _ => None
             end) calls.

(** The writes attempted in a log. *)
Definition written (calls : list HostCall) : list (string * Json) :=
  omap (λ c, match c with
             | fs_writeFileSync file data => Some (file, data)
             | _ => None
             end) calls.

(** A session on a writable, empty disk, and the state of the scenario of
    the specification after its two marks of "/a.txt". *)
Definition empty_disk : FileSystem :=
  {| files := ∅; write_error := None; read_error := None |}.

Definition started : World :=
  fresh (Some "/storage/fileMarks.json") empty_disk None.

Definition marked_twice : World :=
  run started [ Accept a_txt (Some item_UNREAD) (Some "") 1;
                Accept a_txt (Some item_READ) (Some "looks good") 2 ].

Definition b_txt : Uri := {| fsPath := "/b.txt" |}.

Definition full_disk : FileSystem :=
  {| files := ∅; write_error := Some "Error: ENOSPC: no space left on device";
     read_error := None |}.

Definition on_full_disk : World :=
  {| fileMarks := {[ "/a.txt" := looks_good ]};
     storageFile := Some "/storage/fileMarks.json";
     fs := full_disk; activeTextEditor := None; log := [] |}.

(** A new extension host on the disk that [w] leaves behind. *)
Definition restarted (w : World) : World :=
  fresh (storageFile w) (fs w) (activeTextEditor w).

(** A session that marks "/a.txt" and a target whose path is the string
    "__proto__" (the command takes whatever Uri it is handed and reads its
    [fsPath]). *)
Definition proto_uri : Uri := {| fsPath := "__proto__" |}.

Definition marked_proto : World :=
  run started [ Accept a_txt (Some item_READ) (Some "looks good") 5;
                Accept proto_uri (Some item_UNREAD) None 6 ].

(** ** Further observations on sessions *)

(** The callback is a clear whose target is the path [p], when [editor] is
    the Uri of the active editor. *)
Definition clears (editor : option Uri) (p : string) (c : Callback) : bool :=
  match c with
  | ClearMark (Some uri) => bool_decide (fsPath uri = p)
  | ClearMark None =>
    match editor with
    | Some uri => bool_decide (fsPath uri = p)
    | None => false
    end
  | _ => false
  end.

(** The messages shown through [showErrorMessage] in a log. *)
Definition errors (calls : list HostCall) : list string :=
  omap (λ c, match c with
             | showErrorMessage message => Some message
             | _ => None
             end) calls.

(** The storage file holds the document of the store. *)
Definition synced (w : World) (file : string) : Prop :=
  files (fs w) !! file = Some (Doc (document_of (fileMarks w))).

(** A writable disk that holds the document of [marks] at the storage
    path, and a host started on it. *)
Definition disk_with (file : string) (j : Json) : FileSystem :=
  {| files := {[ file := Doc j ]}; write_error := None; read_error := None |}.

Definition started_on (disk : FileSystem) : World :=
  fresh (Some "/storage/fileMarks.json") disk None.

(** The manager after the calls [setMark(filePath, label, note)] of a
    list, in order. *)
Definition setMarks (this : MarkManager.t)
    (calls : list (string * string * option string)) : MarkManager.t :=
  foldl (λ this c, MarkManager.setMark this c.1.1 c.1.2 c.2) this calls.

(** The callback is a command invoked without a Uri. *)
Definition untargeted (c : Callback) : bool :=
  match c with
  | MarkFile None | ClearMark None => true
  | _ => false
  end.

(** The manager keeps with every label the colour [getLabelColor] gives
    it. *)
Definition coloured (mark : MarkManager.Mark) : Prop :=
  MarkManager.color mark
  = MarkManager.getLabelColor (MarkManager.label mark).


(** Every entry of the document is a mark record: an object with exactly
    the fields [type] (one of "read", "partial", "unread"), [note] (a
    string) and [timestamp] (an integer). *)
Definition records_only (j : Json) : Prop :=
  ∀ entries, Object_entries j = Some entries →
             Forall (λ entry, is_Some (as_FileMark entry.2)) entries.

(** * Properties *)

(** ** Frame lemmas: what each operation leaves alone *)

Lemma truthy_spec (s : string) : truthy s = bool_decide (s ≠ "").
Proof. by destruct s. Qed.

Lemma note_or_empty_default (note : option string) :
  note_or_empty note = default "" note.
Proof. by destruct note as [[|]|]. Qed.

Lemma fileMarks_updateDecorations w uri :
  fileMarks (updateDecorations w uri) = fileMarks w.
Proof.
  unfold updateDecorations. destruct uri; [done|].
  by destruct (_ <? _)%nat.
Qed.

Lemma storage_Some w file :
  storageFile w = Some file → file ≠ "" → storage w = Some file.
Proof. intros Hfile Hne. unfold storage. rewrite Hfile. by destruct file. Qed.

Lemma fileMarks_saveMarks w : fileMarks (saveMarks w) = fileMarks w.
Proof.
  unfold saveMarks. destruct (storage w); [|done].
  by destruct (writeFileSync _ _ _).
Qed.

Lemma fileMarks_onDidAccept w fileUri item note now :
  fileMarks (onDidAccept w fileUri (Some item) note now)
  = <[fsPath fileUri := {| type := value item; note := note_or_empty note;
                           timestamp := now |}]> (fileMarks w).
Proof.
  unfold onDidAccept. cbv zeta.
  by rewrite fileMarks_saveMarks, fileMarks_updateDecorations.
Qed.

Lemma fileMarks_clearMarkCommand w uri fileUri :
  target w uri = Some fileUri →
  fileMarks (clearMarkCommand w uri).2 = delete (fsPath fileUri) (fileMarks w).
Proof.
  intros Htarget. unfold clearMarkCommand. rewrite Htarget.
  cbv zeta. case_bool_decide as Hpresent; cbn [snd].
  - by rewrite fileMarks_saveMarks, fileMarks_updateDecorations.
  - symmetry. apply delete_id.
    by destruct (fileMarks w !! fsPath fileUri) eqn:E; [destruct Hpresent|].
Qed.

(** A callback that does not write a record for [p] cannot make one appear
    there. *)
Lemma step_keeps_absent w c p :
  sets p c = false →
  fileMarks w !! p = None →
  fileMarks (step w c) !! p = None.
Proof.
  intros Hsets Habsent.
  destruct c as [uri|fileUri [item|] note now|uri]; cbn [step sets] in *.
  - unfold markFileCommand. by destruct (target w uri).
  - rewrite fileMarks_onDidAccept.
    apply bool_decide_eq_false in Hsets. by rewrite lookup_insert_ne.
  - done.
  - destruct (target w uri) as [fileUri|] eqn:Htarget.
    + rewrite (fileMarks_clearMarkCommand _ _ _ Htarget).
      rewrite lookup_delete. by case_decide.
    + unfold clearMarkCommand. by rewrite Htarget.
Qed.

Lemma run_keeps_absent session : ∀ w p,
  Forall (λ c, sets p c = false) session →
  fileMarks w !! p = None →
  fileMarks (run w session) !! p = None.
Proof.
  induction session as [|c session IH]; intros w p Hsession Habsent; [done|].
  inversion_clear Hsession as [|? ? Hc Hrest]. cbn [run foldl].
  apply IH; [done|]. by apply step_keeps_absent.
Qed.

(** ** The presentation of a mark *)

(** C1, as stated, fails: for a record of kind Read without a note the
    tooltip is the string "已读" of the source, which is not the string
    "Read" of the table in the specification. *)
Lemma C1_tooltip_base_is_not_Read :
  ∃ d,
    provideFileDecoration
      {[ "/a.txt" := {| type := READ; note := ""; timestamp := 0 |} ]} a_txt
    = Some d
    ∧ badge d = "✅"
    ∧ tooltip d = "已读"
    ∧ tooltip d ≠ "Read".
Proof. eexists. by vm_compute. Qed.

(** C1, amended: the presentation is defined for every marked path and
    follows the table READ / PARTIAL / UNREAD -> badge "✅" / "🟠" / "❗",
    tooltip base "已读" / "部分阅读" / "未读", colour token
    fileMarker.read / fileMarker.partial / fileMarker.unread; the tooltip
    is the base alone when the note is empty and the base followed by ": "
    and the note otherwise. *)
Theorem provideFileDecoration_table
    (marks : gmap string FileMark) (uri : Uri) (mark : FileMark) :
  marks !! fsPath uri = Some mark →
  provideFileDecoration marks uri
  = Some {| badge := badge_of (type mark);
            tooltip := if decide (note mark = "")
                       then tooltip_base (type mark)
                       else tooltip_base (type mark) ++ ": " ++ note mark;
            color := Some {| id := color_token (type mark) |} |}.
Proof.
  intros Hmark. unfold provideFileDecoration. rewrite Hmark.
  rewrite truthy_spec.
  destruct mark as [[] n ts]; simpl;
    case_bool_decide; case_decide; done.
Qed.

Lemma provideFileDecoration_table_witness :
  ({[ "/a.txt" := looks_good ]} : gmap string FileMark) !! fsPath a_txt
  = Some looks_good
  ∧ provideFileDecoration {[ "/a.txt" := looks_good ]} a_txt
    = Some {| badge := "✅"; tooltip := "已读: looks good";
              color := Some {| id := "fileMarker.read" |} |}.
Proof.
  split; [reflexivity|].
  by apply (provideFileDecoration_table
              {[ "/a.txt" := looks_good ]} a_txt looks_good).
Defined.

(** ** Marking a file *)

Lemma lookup_onDidAccept w fileUri item note now :
  fileMarks (onDidAccept w fileUri (Some item) note now) !! fsPath fileUri
  = Some {| type := value item; note := default "" note; timestamp := now |}.
Proof.
  by rewrite fileMarks_onDidAccept, note_or_empty_default, lookup_insert_eq.
Qed.

(** C2: accepting the quick pick always stores, under the path of the
    target, the record made of the chosen kind, the note typed (the empty
    string when none was given) and the clock reading [now] of that moment;
    the records of all other paths stay as they were; looking the path up
    afterwards gives exactly that record, whose timestamp is not before
    [now]. *)
Theorem set_then_get (w : World) (fileUri : Uri) (item : MarkAsQuickPickItem)
    (note : option string) (now : Z) :
  fileMarks (onDidAccept w fileUri (Some item) note now) !! fsPath fileUri
  = Some {| type := value item; note := default "" note; timestamp := now |}
  ∧ (∀ q, q ≠ fsPath fileUri →
       fileMarks (onDidAccept w fileUri (Some item) note now) !! q
       = fileMarks w !! q)
  ∧ (∀ r,
       fileMarks (onDidAccept w fileUri (Some item) note now) !! fsPath fileUri
       = Some r →
       timestamp r = now ∧ now ≤ timestamp r).
Proof.
  split_and!.
  - apply lookup_onDidAccept.
  - intros q Hq. by rewrite fileMarks_onDidAccept, lookup_insert_ne.
  - rewrite lookup_onDidAccept. intros r [= <-]. simpl. lia.
Qed.

(** C5: of two marks set one after the other on the same path, the second
    is the one found afterwards, whole: its kind, its note and its
    timestamp; the store is the one the second mark alone would have left,
    so nothing of the first record is kept. *)
Theorem set_overwrites (w : World) (fileUri : Uri)
    (a b : MarkAsQuickPickItem) (x y : option string) (t1 t2 : Z) :
  fileMarks (onDidAccept (onDidAccept w fileUri (Some a) x t1)
                         fileUri (Some b) y t2) !! fsPath fileUri
  = Some {| type := value b; note := default "" y; timestamp := t2 |}
  ∧ fileMarks (onDidAccept (onDidAccept w fileUri (Some a) x t1)
                           fileUri (Some b) y t2)
    = fileMarks (onDidAccept w fileUri (Some b) y t2).
Proof.
  split; [apply lookup_onDidAccept|].
  rewrite !fileMarks_onDidAccept. apply insert_insert_eq.
Qed.

(** ** What the host gets to see *)

Lemma log_saveMarks w :
  log (saveMarks w)
  = (log w ++
     match storage w with
     | None => []
     | Some file =>
       fs_writeFileSync file (document_of (fileMarks w)) ::
       match write_error (fs w) with
       | Some e => [showErrorMessage ("无法保存文件标记: " ++ e)%string]
       | None => []
       end
     end)%list.
Proof.
  unfold saveMarks, writeFileSync, document_of.
  destruct (storage w) as [file|]; [|by rewrite app_nil_r].
  cbn [fs call]. destruct (write_error (fs w)); cbn [log call with_fs].
  - by rewrite <- app_assoc.
  - done.
Qed.

Lemma fired_app l1 l2 : fired (l1 ++ l2)%list = (fired l1 ++ fired l2)%list.
Proof. apply omap_app. Qed.

Lemma written_app l1 l2 :
  written (l1 ++ l2)%list = (written l1 ++ written l2)%list.
Proof. apply omap_app. Qed.

Lemma fired_saveMarks w : fired (log (saveMarks w)) = fired (log w).
Proof.
  rewrite log_saveMarks, fired_app.
  destruct (storage w); [|by rewrite app_nil_r].
  destruct (write_error (fs w)); by rewrite app_nil_r.
Qed.

(** The state a clear that finds a record goes through and ends in. *)
Lemma clearMarkCommand_present w uri fileUri :
  target w uri = Some fileUri →
  is_Some (fileMarks w !! fsPath fileUri) →
  clearMarkCommand w uri
  = (undefined,
     saveMarks
       (call (with_fileMarks w (delete (fsPath fileUri) (fileMarks w)))
             (onDidChangeFileDecorations_fire (one_uri fileUri)))).
Proof.
  intros Htarget Hpresent. unfold clearMarkCommand. rewrite Htarget.
  cbv zeta. by rewrite bool_decide_eq_true_2.
Qed.

Lemma clearMarkCommand_absent w uri fileUri :
  target w uri = Some fileUri →
  fileMarks w !! fsPath fileUri = None →
  clearMarkCommand w uri = (undefined, w).
Proof.
  intros Htarget Habsent. unfold clearMarkCommand. rewrite Htarget.
  cbv zeta. rewrite bool_decide_eq_false_2; [done|].
  rewrite Habsent. by intros [? ?].
Qed.

Lemma target_irrelevant w w' uri :
  activeTextEditor w' = activeTextEditor w → target w' uri = target w uri.
Proof. intros H. unfold target. by rewrite H. Qed.

Lemma activeTextEditor_saveMarks w :
  activeTextEditor (saveMarks w) = activeTextEditor w.
Proof.
  unfold saveMarks. destruct (storage w); [|done].
  by destruct (writeFileSync _ _ _).
Qed.

Lemma activeTextEditor_clearMarkCommand w uri :
  activeTextEditor (clearMarkCommand w uri).2 = activeTextEditor w.
Proof.
  unfold clearMarkCommand. destruct (target w uri) as [fileUri|]; [|done].
  cbv zeta. case_bool_decide; [|done].
  cbn [snd]. by rewrite activeTextEditor_saveMarks.
Qed.

(** ** Clearing a mark *)

(** C4, as stated, fails: in the scenario, the clear of "/a.txt" leaves the
    path unmarked but fires the event for the one Uri of "/a.txt"; no event
    carrying the array of the marked paths is fired, by the clear or before
    it. *)
Lemma C4_clear_fires_no_full_refresh :
  fileMarks marked_twice !! "/a.txt"
  = Some {| type := READ; note := "looks good"; timestamp := 2 |}
  ∧ fileMarks (clearMarkCommand marked_twice (Some a_txt)).2 !! "/a.txt" = None
  ∧ fired (log (clearMarkCommand marked_twice (Some a_txt)).2)
    = (fired (log marked_twice) ++ [one_uri a_txt])%list
  ∧ ¬ ∃ files,
        uris_of_files files
        ∈ fired (log (clearMarkCommand marked_twice (Some a_txt)).2).
Proof.
  split_and!; [by vm_compute..|].
  intros [files Hin]. vm_compute in Hin.
  repeat (apply elem_of_cons in Hin as [Hin|Hin]; [discriminate|]).
  by apply elem_of_nil in Hin.
Qed.

(** C4, amended: when a path holds a mark and the clear command is run on
    it, the path is unmarked afterwards and exactly one decoration event is
    fired, the one for the Uri of that path. *)
Theorem clear_signals_the_cleared_path (w : World) (uri : Uri) (mark : FileMark) :
  fileMarks w !! fsPath uri = Some mark →
  fileMarks (clearMarkCommand w (Some uri)).2 !! fsPath uri = None
  ∧ fired (log (clearMarkCommand w (Some uri)).2)
    = (fired (log w) ++ [one_uri uri])%list.
Proof.
  intros Hmark.
  rewrite (clearMarkCommand_present w (Some uri) uri) by (by rewrite ?Hmark).
  cbn [snd]. rewrite fileMarks_saveMarks, fired_saveMarks. split.
  - apply lookup_delete_eq.
  - cbn [log call with_fileMarks]. by rewrite fired_app.
Qed.

Lemma clear_signals_the_cleared_path_witness :
  fileMarks marked_twice !! fsPath a_txt
  = Some {| type := READ; note := "looks good"; timestamp := 2 |}
  ∧ fileMarks (clearMarkCommand marked_twice (Some a_txt)).2 !! fsPath a_txt
    = None
  ∧ fired (log (clearMarkCommand marked_twice (Some a_txt)).2)
    = (fired (log marked_twice) ++ [one_uri a_txt])%list.
Proof.
  split; [by vm_compute|].
  apply (clear_signals_the_cleared_path marked_twice a_txt
           {| type := READ; note := "looks good"; timestamp := 2 |}).
  by vm_compute.
Defined.

(** C6, as stated, fails: the clear command hands nothing back.  Run on a
    path that holds a mark it removes the record, and what it returns is
    [undefined], not [true]. *)
Lemma C6_clear_returns_undefined :
  fileMarks marked_twice !! "/a.txt"
  = Some {| type := READ; note := "looks good"; timestamp := 2 |}
  ∧ fileMarks (clearMarkCommand marked_twice (Some a_txt)).2 !! "/a.txt" = None
  ∧ (clearMarkCommand marked_twice (Some a_txt)).1 = undefined
  ∧ (clearMarkCommand marked_twice (Some a_txt)).1 ≠ boolean true.
Proof. split_and!; by vm_compute. Qed.

(** C6, amended: the clear command returns no value; it removes the record
    of its target if there is one and changes no other record; run a second
    time in a row it changes nothing at all (store, disk and log are those
    the first run left), and run on a path without a mark it is a no-op,
    not an error. *)
Theorem clear_twice (w : World) (uri : option Uri) (fileUri : Uri) :
  target w uri = Some fileUri →
  (clearMarkCommand w uri).1 = undefined
  ∧ fileMarks (clearMarkCommand w uri).2
    = delete (fsPath fileUri) (fileMarks w)
  ∧ clearMarkCommand (clearMarkCommand w uri).2 uri
    = (undefined, (clearMarkCommand w uri).2)
  ∧ (fileMarks w !! fsPath fileUri = None →
     clearMarkCommand w uri = (undefined, w)).
Proof.
  intros Htarget. split_and!.
  - unfold clearMarkCommand. rewrite Htarget. cbv zeta.
    by case_bool_decide.
  - by apply fileMarks_clearMarkCommand.
  - apply (clearMarkCommand_absent _ _ fileUri).
    + rewrite <- Htarget. apply target_irrelevant.
      apply activeTextEditor_clearMarkCommand.
    + rewrite (fileMarks_clearMarkCommand _ _ _ Htarget).
      apply lookup_delete_eq.
  - by apply clearMarkCommand_absent.
Qed.

Lemma clear_twice_witness :
  target marked_twice (Some a_txt) = Some a_txt
  ∧ clearMarkCommand (clearMarkCommand marked_twice (Some a_txt)).2 (Some a_txt)
    = (undefined, (clearMarkCommand marked_twice (Some a_txt)).2).
Proof.
  split; [reflexivity|].
  by apply (clear_twice marked_twice (Some a_txt) a_txt).
Defined.

(** C10: the clear command run on a path without a mark leaves everything
    as it was: no write is attempted and no decoration event fired.  Run on
    a path with a mark it fires the event of that one Uri and, the storage
    file being set (and not the empty string), attempts one write, of the
    document of the store without the record. *)
Theorem clear_of_unmarked_is_silent (w : World) (uri : option Uri)
    (fileUri : Uri) :
  target w uri = Some fileUri →
  (fileMarks w !! fsPath fileUri = None →
   (clearMarkCommand w uri).2 = w)
  ∧ (is_Some (fileMarks w !! fsPath fileUri) →
     fired (log (clearMarkCommand w uri).2)
     = (fired (log w) ++ [one_uri fileUri])%list
     ∧ ∀ file, storageFile w = Some file → file ≠ "" →
         written (log (clearMarkCommand w uri).2)
         = (written (log w)
            ++ [(file, document_of (delete (fsPath fileUri) (fileMarks w)))])%list).
Proof.
  intros Htarget. split.
  - intros Habsent. by rewrite (clearMarkCommand_absent _ _ _ Htarget Habsent).
  - intros Hpresent.
    rewrite (clearMarkCommand_present _ _ _ Htarget Hpresent). cbn [snd].
    split.
    + rewrite fired_saveMarks. cbn [log call with_fileMarks].
      by rewrite fired_app.
    + intros file Hfile Hne. rewrite log_saveMarks.
      rewrite (storage_Some _ file) by done.
      cbn [log call with_fileMarks fs fileMarks].
      rewrite !written_app. cbn [written omap].
      rewrite app_nil_r. f_equal.
      by destruct (write_error (fs w)).
Qed.

Lemma clear_of_unmarked_is_silent_witness :
  target started (Some a_txt) = Some a_txt
  ∧ fileMarks started !! fsPath a_txt = None
  ∧ (clearMarkCommand started (Some a_txt)).2 = started.
Proof.
  split; [reflexivity|]. split; [reflexivity|].
  by apply (clear_of_unmarked_is_silent started (Some a_txt) a_txt).
Defined.

(** ** The full refresh *)

Lemma elem_of_marked_paths (marks : gmap string FileMark) (p : string) :
  p ∈ (map_to_list marks).*1 ↔ is_Some (marks !! p).
Proof.
  rewrite list_elem_of_fmap. split.
  - intros [[q mark] [-> Hin]]. apply elem_of_map_to_list in Hin. by exists mark.
  - intros [mark Hmark]. exists (p, mark). by rewrite elem_of_map_to_list.
Qed.

(** C9: a full refresh (no Uri given) of a store without marks fires
    nothing and changes nothing; with at least one mark it fires exactly
    one event, whose array lists the marked paths and no other. *)
Theorem full_refresh_fires_iff_marked (w : World) :
  (fileMarks w = ∅ → updateDecorations w None = w)
  ∧ (fileMarks w ≠ ∅ →
     ∃ files,
       log (updateDecorations w None)
       = (log w ++ [onDidChangeFileDecorations_fire (uris_of_files files)])%list
       ∧ ∀ p, p ∈ files ↔ is_Some (fileMarks w !! p)).
Proof.
  unfold updateDecorations. split.
  - intros ->. by rewrite map_to_list_empty.
  - intros Hmarked. exists (map_to_list (fileMarks w)).*1.
    split; [|apply elem_of_marked_paths].
    destruct (map_to_list (fileMarks w)) as [|entry entries] eqn:Hlist.
    + by apply map_to_list_empty_iff in Hlist.
    + done.
Qed.

(** ** Looking a path up *)

Lemma provideFileDecoration_None (marks : gmap string FileMark) (uri : Uri) :
  provideFileDecoration marks uri = None ↔ marks !! fsPath uri = None.
Proof.
  unfold provideFileDecoration.
  destruct (marks !! fsPath uri) as [[[] n ts]|]; simpl; by split.
Qed.

(** X28: over a session in which no callback writes a record for the path of
    [uri], the lookup of that path is absent and the decoration callback
    answers [undefined], whether the session starts from a store without a
    record for the path, right after a clear of the path, or from the empty
    store of a fresh host.  Both are functions of the store that return a
    value and nothing else: there is no error and no new state. *)
Theorem lookup_of_unmarked_is_absent (w : World) (session : list Callback)
    (uri : Uri) :
  Forall (λ c, sets (fsPath uri) c = false) session →
  (fileMarks w !! fsPath uri = None →
   fileMarks (run w session) !! fsPath uri = None
   ∧ provideFileDecoration (fileMarks (run w session)) uri = None)
  ∧ (fileMarks (run (clearMarkCommand w (Some uri)).2 session) !! fsPath uri
     = None
     ∧ provideFileDecoration
         (fileMarks (run (clearMarkCommand w (Some uri)).2 session)) uri
       = None)
  ∧ (∀ file disk editor,
       fileMarks (run (fresh file disk editor) session) !! fsPath uri = None
       ∧ provideFileDecoration
           (fileMarks (run (fresh file disk editor) session)) uri
         = None).
Proof.
  intros Hsession.
  assert (∀ w0, fileMarks w0 !! fsPath uri = None →
            fileMarks (run w0 session) !! fsPath uri = None
            ∧ provideFileDecoration (fileMarks (run w0 session)) uri = None)
    as Hrun.
  { intros w0 Habsent. rewrite provideFileDecoration_None.
    split; by apply run_keeps_absent. }
  split; [|split].
  - apply Hrun.
  - apply Hrun.
    rewrite (fileMarks_clearMarkCommand w (Some uri) uri eq_refl).
    apply lookup_delete_eq.
  - intros file disk editor. by apply Hrun.
Qed.

Lemma lookup_of_unmarked_is_absent_witness :
  Forall (λ c, sets (fsPath a_txt) c = false)
         [ MarkFile None; Accept b_txt (Some item_PARTIAL) None 7;
           ClearMark (Some a_txt) ]
  ∧ provideFileDecoration
      (fileMarks
         (run (clearMarkCommand marked_twice (Some a_txt)).2
              [ MarkFile None; Accept b_txt (Some item_PARTIAL) None 7;
                ClearMark (Some a_txt) ]))
      a_txt
    = None.
Proof.
  assert (Forall (λ c, sets (fsPath a_txt) c = false)
            [ MarkFile None; Accept b_txt (Some item_PARTIAL) None 7;
              ClearMark (Some a_txt) ]) as Hsession.
  { repeat constructor. }
  split; [exact Hsession|].
  destruct (lookup_of_unmarked_is_absent marked_twice _ a_txt Hsession)
    as (_ & [_ Hcleared] & _).
  exact Hcleared.
Defined.

(** ** A save that fails *)

(** C8: when the write of [saveMarks] throws, the store, the storage path
    and the disk are what they were; the attempt and one message to the
    user (through [showErrorMessage]) are all that happened, and
    [saveMarks] returns normally.  The mark or the clear that led to such a
    save stays in the store. *)
Theorem failed_save_keeps_the_store (w : World) (file e : string) :
  storageFile w = Some file →
  file ≠ "" →
  write_error (fs w) = Some e →
  saveMarks w
  = {| fileMarks := fileMarks w; storageFile := storageFile w; fs := fs w;
       activeTextEditor := activeTextEditor w;
       log := (log w
               ++ [ fs_writeFileSync file (document_of (fileMarks w));
                    showErrorMessage ("无法保存文件标记: " ++ e)%string ])%list |}
  ∧ (∀ fileUri item note now,
       fileMarks (onDidAccept w fileUri (Some item) note now)
       = <[fsPath fileUri := {| type := value item; note := default "" note;
                                timestamp := now |}]> (fileMarks w))
  ∧ (∀ fileUri,
       fileMarks (clearMarkCommand w (Some fileUri)).2
       = delete (fsPath fileUri) (fileMarks w)).
Proof.
  intros Hfile Hne Hwrite. split_and!.
  - unfold saveMarks, writeFileSync, document_of.
    rewrite (storage_Some w file Hfile Hne).
    cbn [fs call]. rewrite Hwrite. unfold call.
    cbn [log fileMarks storageFile fs activeTextEditor].
    by rewrite <- app_assoc.
  - intros. by rewrite fileMarks_onDidAccept, note_or_empty_default.
  - intros. by apply fileMarks_clearMarkCommand.
Qed.

Lemma failed_save_keeps_the_store_witness :
  storageFile on_full_disk = Some "/storage/fileMarks.json"
  ∧ "/storage/fileMarks.json" ≠ ""
  ∧ write_error (fs on_full_disk)
    = Some "Error: ENOSPC: no space left on device"
  ∧ fileMarks (saveMarks on_full_disk) = {[ "/a.txt" := looks_good ]}.
Proof.
  assert ("/storage/fileMarks.json" ≠ "") as Hne by discriminate.
  split; [reflexivity|]. split; [exact Hne|]. split; [reflexivity|].
  destruct (failed_save_keeps_the_store on_full_disk
              "/storage/fileMarks.json"
              "Error: ENOSPC: no space left on device"
              eq_refl Hne eq_refl) as [Hsave _].
  rewrite Hsave. reflexivity.
Defined.

(** ** Saving and loading again *)

(** The object [saveMarks] builds from the store: every record as an own
    property, but for the record of the key ["__proto__"], which ends up as
    the prototype. *)
Lemma data_of_saveMarks (marks : gmap string FileMark) :
  map_fold (λ key value data, assign data key value) empty_object marks
  = {| own := delete "__proto__" marks; prototype := marks !! "__proto__" |}.
Proof.
  apply (map_fold_weak_ind
           (λ data marks,
              data = {| own := delete "__proto__" marks;
                        prototype := marks !! "__proto__" |})).
  - by rewrite delete_empty, lookup_empty.
  - intros key mark m data Hfresh ->. unfold assign. cbn [own prototype].
    destruct (String.eqb_spec key "__proto__") as [->|Hkey].
    + by rewrite delete_insert_eq, lookup_insert_eq.
    + by rewrite delete_insert_ne, lookup_insert_ne.
Qed.

Lemma FileMarkType_of_value (t : FileMarkType) :
  FileMarkType_of (FileMarkType_value t) = Some t.
Proof. by destruct t. Qed.

(** The cast reads back what [JSON.stringify] wrote of a mark. *)
Lemma as_FileMark_json (mark : FileMark) :
  as_FileMark (FileMark_json mark) = Some mark.
Proof.
  destruct mark as [t n ts]. unfold as_FileMark, FileMark_json.
  cbn [type note timestamp].
  rewrite lookup_insert_eq.
  rewrite lookup_insert_ne, lookup_insert_eq by done.
  rewrite !lookup_insert_ne, lookup_insert_eq by done.
  rewrite !map_size_insert_None, map_size_empty;
    [|by rewrite ?lookup_insert_ne by done..].
  cbn [Nat.eqb]. by rewrite FileMarkType_of_value.
Qed.

Lemma set_entries_cons marks entry entries :
  set_entries marks (entry :: entries)
  = match as_FileMark entry.2 with
    | Some mark => set_entries (<[entry.1 := mark]> marks) entries
    | None => None
    end.
Proof.
  unfold set_entries. cbn [foldl].
  destruct (as_FileMark entry.2); [done|].
  induction entries as [|e es IH]; [done|]. by cbn [foldl].
Qed.

(** With distinct keys, the store the loop leaves holds for each entry the
    value read through the cast, and besides what it held before. *)
Lemma set_entries_lookup entries : ∀ marks loaded,
  NoDup entries.*1 →
  set_entries marks entries = Some loaded →
  ∀ key, loaded !! key
         = match (list_to_map entries : gmap string Json) !! key with
           | Some value => as_FileMark value
           | None => marks !! key
           end.
Proof.
  induction entries as [|[k v] entries IH]; intros marks loaded Hkeys Hset key.
  - injection Hset as <-. cbn [list_to_map fmap foldr]. by rewrite lookup_empty.
  - rewrite set_entries_cons in Hset. cbn [fst snd] in Hset.
    destruct (as_FileMark v) as [mark|] eqn:Hv; [|done].
    apply NoDup_cons in Hkeys as [Hk Hkeys].
    rewrite (IH _ _ Hkeys Hset key), list_to_map_cons.
    destruct (decide (key = k)) as [->|Hne].
    + by rewrite (not_elem_of_list_to_map_1 entries k Hk), !lookup_insert_eq.
    + by rewrite !(lookup_insert_ne _ k key).
Qed.

Lemma set_entries_is_Some entries : ∀ marks,
  Forall (λ entry, is_Some (as_FileMark entry.2)) entries →
  is_Some (set_entries marks entries).
Proof.
  induction entries as [|entry entries IH]; intros marks Hcast; [by eexists|].
  inversion_clear Hcast as [|? ? [mark Hmark] Hrest].
  rewrite set_entries_cons, Hmark. by apply IH.
Qed.

(** Loading, into an empty store, the entries of a document of marks. *)
Lemma set_entries_of_json (marks : gmap string FileMark) :
  set_entries ∅ (map_to_list (FileMark_json <$> marks)) = Some marks.
Proof.
  destruct (set_entries_is_Some (map_to_list (FileMark_json <$> marks)) ∅)
    as [loaded Hloaded].
  { apply Forall_forall. intros [k v] Hin%elem_of_map_to_list.
    apply lookup_fmap_Some in Hin as (mark & <- & _).
    cbn [snd]. by rewrite as_FileMark_json. }
  rewrite Hloaded. f_equal. apply map_eq. intros key.
  rewrite (set_entries_lookup _ _ _ (NoDup_fst_map_to_list _) Hloaded key).
  rewrite list_to_map_to_list, lookup_fmap, lookup_empty.
  destruct (marks !! key); [|done]. apply as_FileMark_json.
Qed.

(** Saving to a disk that takes the write and loading in a new host gives
    the store back without the record of the key ["__proto__"]. *)
Lemma save_then_load (w : World) (file : string) :
  storageFile w = Some file →
  file ≠ "" →
  write_error (fs w) = None →
  read_error (fs w) = None →
  fileMarks <$> loadMarks (restarted (saveMarks w))
  = Some (delete "__proto__" (fileMarks w)).
Proof.
  intros Hfile Hne Hwrite Hread.
  unfold saveMarks, writeFileSync. rewrite (storage_Some w file Hfile Hne).
  cbn [fs call]. rewrite Hwrite, data_of_saveMarks.
  unfold loadMarks, restarted, fresh, with_fs, call, existsSync, readFileSync.
  rewrite (storage_Some _ file) by done.
  cbn [storageFile fs files read_error].
  rewrite Hread, lookup_insert_eq.
  rewrite bool_decide_eq_true_2 by by eexists.
  cbn [negb JSON_parse JSON_stringify Object_entries own with_fileMarks
       fileMarks].
  rewrite set_entries_of_json. done.
Qed.

(** The round trip is the identity on the stores without that key. *)
Lemma save_then_load_id (w : World) (file : string) :
  storageFile w = Some file →
  file ≠ "" →
  write_error (fs w) = None →
  read_error (fs w) = None →
  fileMarks w !! "__proto__" = None →
  fileMarks <$> loadMarks (restarted (saveMarks w)) = Some (fileMarks w).
Proof.
  intros Hfile Hne Hwrite Hread Hkey.
  rewrite (save_then_load w file) by done. by rewrite delete_id.
Qed.

(** C3 at the store with the two keys "/a.txt" and "__proto__": saving
    writes a document with the entry of "/a.txt" alone, and loading it into
    a new host gives a store in which the record of "__proto__" is
    missing. *)
Theorem roundtrip_loses_proto_key :
  fileMarks marked_proto
  = {[ "/a.txt" := looks_good;
       "__proto__" := {| type := UNREAD; note := ""; timestamp := 6 |} ]}
  ∧ files (fs (saveMarks marked_proto)) !! "/storage/fileMarks.json"
    = Some (Doc (JObj {[ "/a.txt" := FileMark_json looks_good ]}))
  ∧ fileMarks <$> loadMarks (restarted (saveMarks marked_proto))
    = Some {[ "/a.txt" := looks_good ]}
  ∧ fileMarks <$> loadMarks (restarted (saveMarks marked_proto))
    ≠ Some (fileMarks marked_proto).
Proof.
  split_and!; [vm_compute; reflexivity..|].
  intros Heq.
  apply (f_equal (λ loaded, loaded ≫= (.!! "__proto__"))) in Heq.
  vm_compute in Heq. discriminate Heq.
Qed.

(** ** The class [MarkManager] *)

(** Reading a path back after [setMark] gives the mark just made, for
    every path. *)
Lemma MarkManager_getMark_setMark (this : MarkManager.t)
    (filePath label : string) (note : option string) :
  MarkManager.getMark (MarkManager.setMark this filePath label note) filePath
  = MarkManager.object
      {| MarkManager.label := label;
         MarkManager.color := MarkManager.getLabelColor label;
         MarkManager.note := default "" note |}.
Proof.
  unfold MarkManager.getMark, MarkManager.setMark.
  rewrite note_or_empty_default.
  destruct (String.eqb filePath "__proto__") eqn:Hkey; cbn.
  - done.
  - by rewrite lookup_insert_eq.
Qed.

(** A path that was never set reads as [undefined] unless it names a
    member of [Object.prototype]. *)
Lemma MarkManager_getMark_new (filePath : string) :
  filePath ≠ "__proto__" →
  filePath ∉ MarkManager.Object_prototype_functions →
  MarkManager.getMark MarkManager.new filePath = MarkManager.undefined.
Proof.
  intros Hproto Hmember. unfold MarkManager.getMark.
  apply String.eqb_neq in Hproto. rewrite Hproto. cbn.
  by rewrite bool_decide_eq_false_2.
Qed.

Example MarkManager_getMark_new_constructor :
  MarkManager.getMark MarkManager.new "constructor"
  = MarkManager.Object_prototype_function "constructor".
Proof. reflexivity. Qed.

(** X27: [MarkDecorationProvider] shows the label as the badge, the note
    (the label when there is no note) as the tooltip, and one colour for
    every mark. *)
Lemma MarkDecorationProvider_of_marked (this : MarkManager.t) (uri : Uri)
    (label : string) (note : option string) :
  MarkManager.provideFileDecoration
    (MarkManager.setMark this (fsPath uri) label note) uri
  = Some {| MarkManager.badge := Some label;
            MarkManager.tooltip :=
              Some (if decide (default "" note = "") then label
                    else default "" note);
            MarkManager.theme :=
              {| id := "editorGutter.modifiedBackground" |} |}.
Proof.
  unfold MarkManager.provideFileDecoration.
  rewrite MarkManager_getMark_setMark. cbn. rewrite truthy_spec.
  case_bool_decide; case_decide; done.
Qed.

(** * Further properties *)

(** ** The shape of a callback's effect *)

Lemma onDidAccept_Some w fileUri item note now :
  onDidAccept w fileUri (Some item) note now
  = saveMarks
      (call (with_fileMarks w
               (<[fsPath fileUri := {| type := value item;
                                       note := note_or_empty note;
                                       timestamp := now |}]> (fileMarks w)))
            (onDidChangeFileDecorations_fire (one_uri fileUri))).
Proof. reflexivity. Qed.

(** A callback leaves the state alone, shows the warning of the missing
    target, or changes the store, fires the event of one Uri and saves. *)
Lemma step_shape w c :
  step w c = w
  ∨ step w c = call w (showWarningMessage "未选择文件")
  ∨ ∃ marks uri,
      step w c
      = saveMarks (call (with_fileMarks w marks)
                        (onDidChangeFileDecorations_fire (one_uri uri))).
Proof.
  destruct c as [uri|fileUri [item|] note now|uri]; cbn [step].
  - unfold markFileCommand. destruct (target w uri); cbn [fst]; auto.
  - right; right. rewrite onDidAccept_Some. eauto.
  - by left.
  - destruct (target w uri) as [fileUri|] eqn:Htarget.
    + destruct (fileMarks w !! fsPath fileUri) as [mark|] eqn:Hmark.
      * right; right.
        rewrite (clearMarkCommand_present w uri fileUri) by (by rewrite ?Hmark).
        cbn [snd]. eauto.
      * left. by rewrite (clearMarkCommand_absent w uri fileUri).
    + right; left. unfold clearMarkCommand. by rewrite Htarget.
Qed.

Lemma storageFile_saveMarks w : storageFile (saveMarks w) = storageFile w.
Proof.
  unfold saveMarks. destruct (storage w); [|done].
  by destruct (writeFileSync _ _ _).
Qed.

Lemma storage_saveMarks w : storage (saveMarks w) = storage w.
Proof. unfold storage. by rewrite storageFile_saveMarks. Qed.

(** What a save does to the disk. *)
Lemma fs_saveMarks w :
  fs (saveMarks w)
  = match storage w, write_error (fs w) with
    | Some file, None =>
      {| files := <[file := Doc (document_of (fileMarks w))]> (files (fs w));
         write_error := None; read_error := read_error (fs w) |}
    | _, _ => fs w
    end.
Proof.
  unfold saveMarks, writeFileSync, document_of.
  destruct (storage w) as [file|]; [|done]. cbn [fs call].
  by destruct (write_error (fs w)) eqn:Hwrite; cbn [fs call with_fs];
    rewrite ?Hwrite.
Qed.

Lemma write_error_saveMarks w :
  write_error (fs (saveMarks w)) = write_error (fs w).
Proof.
  rewrite fs_saveMarks. destruct (storage w); [|done].
  by destruct (write_error (fs w)) eqn:Hwrite.
Qed.

Lemma storageFile_step w c : storageFile (step w c) = storageFile w.
Proof.
  destruct (step_shape w c) as [->|[->|(marks & uri & ->)]]; [done..|].
  by rewrite storageFile_saveMarks.
Qed.

Lemma storage_step w c : storage (step w c) = storage w.
Proof. unfold storage. by rewrite storageFile_step. Qed.

Lemma activeTextEditor_step w c :
  activeTextEditor (step w c) = activeTextEditor w.
Proof.
  destruct (step_shape w c) as [->|[->|(marks & uri & ->)]]; [done..|].
  by rewrite activeTextEditor_saveMarks.
Qed.

Lemma write_error_step w c : write_error (fs (step w c)) = write_error (fs w).
Proof.
  destruct (step_shape w c) as [->|[->|(marks & uri & ->)]]; [done..|].
  by rewrite write_error_saveMarks.
Qed.

Lemma run_cons w c session : run w (c :: session) = run (step w c) session.
Proof. done. Qed.

(** ** Sessions and the store *)

Lemma fileMarks_step_other w c p :
  sets p c = false →
  clears (activeTextEditor w) p c = false →
  fileMarks (step w c) !! p = fileMarks w !! p.
Proof.
  intros Hsets Hclears.
  destruct c as [uri|fileUri [item|] note now|uri]; cbn [step sets clears] in *.
  - unfold markFileCommand. by destruct (target w uri).
  - apply bool_decide_eq_false in Hsets.
    by rewrite fileMarks_onDidAccept, lookup_insert_ne.
  - done.
  - destruct (target w uri) as [fileUri|] eqn:Htarget.
    + rewrite (fileMarks_clearMarkCommand _ _ _ Htarget).
      apply lookup_delete_ne.
      destruct uri as [uri|]; cbn [target] in Htarget.
      * injection Htarget as ->. by apply bool_decide_eq_false in Hclears.
      * rewrite Htarget in Hclears. by apply bool_decide_eq_false in Hclears.
    + unfold clearMarkCommand. by rewrite Htarget.
Qed.

(** X1: the record of a path (or its absence) is the same after a session
    as before it when no callback of the session marks that path or clears
    it; marks and clears of other paths, commands without a target and
    dismissed quick picks leave it alone. *)
Theorem record_stays_until_touched (w : World) (session : list Callback)
    (p : string) :
  Forall (λ c, sets p c = false ∧ clears (activeTextEditor w) p c = false)
         session →
  fileMarks (run w session) !! p = fileMarks w !! p.
Proof.
  revert w. induction session as [|c session IH]; intros w Hsession; [done|].
  inversion_clear Hsession as [|? ? [Hsets Hclears] Hrest].
  rewrite run_cons, IH.
  - by apply fileMarks_step_other.
  - by rewrite activeTextEditor_step.
Qed.

Lemma record_stays_until_touched_witness :
  Forall (λ c, sets "/a.txt" c = false
               ∧ clears (activeTextEditor marked_twice) "/a.txt" c = false)
         [ Accept b_txt (Some item_PARTIAL) None 7; ClearMark (Some b_txt);
           ClearMark None; MarkFile None ]
  ∧ fileMarks
      (run marked_twice
           [ Accept b_txt (Some item_PARTIAL) None 7; ClearMark (Some b_txt);
             ClearMark None; MarkFile None ]) !! "/a.txt"
    = fileMarks marked_twice !! "/a.txt".
Proof.
  assert (Forall (λ c, sets "/a.txt" c = false
                       ∧ clears (activeTextEditor marked_twice) "/a.txt" c
                         = false)
            [ Accept b_txt (Some item_PARTIAL) None 7; ClearMark (Some b_txt);
              ClearMark None; MarkFile None ]) as Hsession.
  { repeat constructor. }
  split; [exact Hsession|].
  exact (record_stays_until_touched marked_twice _ "/a.txt" Hsession).
Defined.

Lemma fileMarks_step_agree w1 w2 c :
  fileMarks w1 = fileMarks w2 →
  activeTextEditor w1 = activeTextEditor w2 →
  fileMarks (step w1 c) = fileMarks (step w2 c).
Proof.
  intros Hmarks Heditor.
  destruct c as [uri|fileUri [item|] note now|uri]; cbn [step].
  - unfold markFileCommand, target. rewrite Heditor.
    by destruct uri, (activeTextEditor w2).
  - by rewrite !fileMarks_onDidAccept, Hmarks.
  - done.
  - assert (target w1 uri = target w2 uri) as Htarget
      by (unfold target; by rewrite Heditor).
    destruct (target w2 uri) as [fileUri|] eqn:H2.
    + rewrite (fileMarks_clearMarkCommand w1 uri fileUri Htarget).
      rewrite (fileMarks_clearMarkCommand w2 uri fileUri H2).
      by rewrite Hmarks.
    + unfold clearMarkCommand. by rewrite Htarget, H2.
Qed.

(** X2: the store after a session is decided by the store and the active
    editor it started with: two hosts that agree on these end with the same
    store, whatever their disks hold, whether their writes fail or not, and
    whether a storage file is set. *)
Theorem store_does_not_depend_on_the_disk (w1 w2 : World)
    (session : list Callback) :
  fileMarks w1 = fileMarks w2 →
  activeTextEditor w1 = activeTextEditor w2 →
  fileMarks (run w1 session) = fileMarks (run w2 session).
Proof.
  revert w1 w2.
  induction session as [|c session IH]; intros w1 w2 Hmarks Heditor; [done|].
  rewrite !run_cons. apply IH.
  - by apply fileMarks_step_agree.
  - by rewrite !activeTextEditor_step.
Qed.

Lemma store_does_not_depend_on_the_disk_witness :
  fileMarks started = fileMarks (started_on full_disk)
  ∧ activeTextEditor started = activeTextEditor (started_on full_disk)
  ∧ fileMarks (run started [ Accept a_txt (Some item_READ) None 3 ])
    = fileMarks (run (started_on full_disk)
                     [ Accept a_txt (Some item_READ) None 3 ]).
Proof.
  split; [reflexivity|]. split; [reflexivity|].
  by apply (store_does_not_depend_on_the_disk started (started_on full_disk)).
Defined.

(** ** Sessions, the host and the disk *)

(** What holds at the start of a session and is kept by the two effects a
    callback can have holds at its end. *)
Lemma run_invariant (P : World → Prop) :
  (∀ w, P w → P (call w (showWarningMessage "未选择文件"))) →
  (∀ w marks uri,
     P w →
     P (saveMarks (call (with_fileMarks w marks)
                        (onDidChangeFileDecorations_fire (one_uri uri))))) →
  ∀ session w, P w → P (run w session).
Proof.
  intros Hwarn Hsave. induction session as [|c session IH]; intros w HP; [done|].
  rewrite run_cons. apply IH.
  destruct (step_shape w c) as [->|[->|(marks & uri & ->)]]; auto.
Qed.

Lemma errors_app l1 l2 : errors (l1 ++ l2)%list = (errors l1 ++ errors l2)%list.
Proof. apply omap_app. Qed.

(** X3: the commands only ever fire the event of a single Uri: over any
    session, what is fired is a list of single Uris; the array of all marked
    paths is never sent by a mark or a clear. *)
Theorem sessions_fire_single_uris (w : World) (session : list Callback) :
  ∃ uris,
    fired (log (run w session)) = (fired (log w) ++ (one_uri <$> uris))%list.
Proof.
  apply (run_invariant
           (λ w', ∃ uris,
              fired (log w') = (fired (log w) ++ (one_uri <$> uris))%list)).
  - intros w' [uris Huris]. exists uris.
    cbn [log call]. by rewrite fired_app, app_nil_r.
  - intros w' marks uri [uris Huris]. exists (uris ++ [uri])%list.
    rewrite fired_saveMarks. cbn [log call with_fileMarks].
    by rewrite fired_app, Huris, fmap_app, app_assoc.
  - exists []. by rewrite app_nil_r.
Qed.

(** X4: a session writes to the storage file and to nothing else: every
    other file of the disk is as it was, every write attempted during the
    session names the storage file, and the conditions under which the disk
    fails are not touched. *)
Theorem sessions_write_the_storage_file_only (w : World)
    (session : list Callback) :
  (∀ f, storage w ≠ Some f →
        files (fs (run w session)) !! f = files (fs w) !! f)
  ∧ (∀ entry, entry ∈ written (log (run w session)) →
              entry ∈ written (log w) ∨ storage w = Some entry.1)
  ∧ write_error (fs (run w session)) = write_error (fs w)
  ∧ read_error (fs (run w session)) = read_error (fs w).
Proof.
  assert (storage (run w session) = storage w
          ∧ (∀ f, storage w ≠ Some f →
                  files (fs (run w session)) !! f = files (fs w) !! f)
          ∧ (∀ entry, entry ∈ written (log (run w session)) →
                      entry ∈ written (log w) ∨ storage w = Some entry.1)
          ∧ write_error (fs (run w session)) = write_error (fs w)
          ∧ read_error (fs (run w session)) = read_error (fs w)) as [_ H];
    [|exact H].
  apply (run_invariant
           (λ w', storage w' = storage w
                  ∧ (∀ f, storage w ≠ Some f →
                          files (fs w') !! f = files (fs w) !! f)
                  ∧ (∀ entry, entry ∈ written (log w') →
                              entry ∈ written (log w) ∨ storage w = Some entry.1)
                  ∧ write_error (fs w') = write_error (fs w)
                  ∧ read_error (fs w') = read_error (fs w))).
  - intros w' (Hstorage & Hfiles & Hwritten & Hwrite & Hread).
    split_and!; [done..| |done|done].
    intros entry. cbn [log call]. rewrite written_app, app_nil_r. apply Hwritten.
  - intros w' marks uri (Hstorage & Hfiles & Hwritten & Hwrite & Hread).
    rewrite storage_saveMarks, write_error_saveMarks.
    split_and!; [done| | |done|].
    + intros f Hf. rewrite fs_saveMarks. cbn [fs call with_fileMarks].
      change (storage (call (with_fileMarks w' marks) _)) with (storage w').
      rewrite Hstorage.
      destruct (storage w) as [file|] eqn:Hfile; [|by apply Hfiles].
      destruct (write_error (fs w')); [by apply Hfiles|].
      cbn [files]. rewrite lookup_insert_ne by congruence. by apply Hfiles.
    + intros entry. rewrite log_saveMarks.
      change (storage (call (with_fileMarks w' marks) _)) with (storage w').
      rewrite Hstorage. cbn [log call with_fileMarks fs].
      rewrite !written_app. cbn [written omap]. rewrite app_nil_r.
      destruct (storage w) as [file|] eqn:Hfile.
      * assert (∀ tail, written (fs_writeFileSync file
                  (document_of marks) :: tail)
                = (file, document_of marks) :: written tail) as -> by done.
        rewrite elem_of_app, elem_of_cons.
        intros [Hin|[->|Hin]]; [by apply Hwritten|by right|].
        destruct (write_error (fs w')); cbn in Hin; by apply elem_of_nil in Hin.
      * rewrite app_nil_r. apply Hwritten.
    + rewrite fs_saveMarks. cbn [fs call with_fileMarks].
      change (storage (call (with_fileMarks w' marks) _)) with (storage w').
      destruct (storage w'); [|done].
      by destruct (write_error (fs w')).
  - split_and!; [done|done|auto|done|done].
Qed.

Lemma storage_None w :
  storageFile w = None ∨ storageFile w = Some "" → storage w = None.
Proof. unfold storage. by intros [->| ->]. Qed.

Lemma saveMarks_without_storage w : storage w = None → saveMarks w = w.
Proof. intros Hstorage. unfold saveMarks. by rewrite Hstorage. Qed.

(** X5: when the storage path is not set, or is the empty string, a session
    never reaches the disk: the disk is as it was, no write is attempted
    and no error message is shown. *)
Theorem sessions_without_storage_file (w : World) (session : list Callback) :
  storageFile w = None ∨ storageFile w = Some "" →
  fs (run w session) = fs w
  ∧ written (log (run w session)) = written (log w)
  ∧ errors (log (run w session)) = errors (log w).
Proof.
  intros Hstorage%storage_None.
  assert (storage (run w session) = None
          ∧ fs (run w session) = fs w
          ∧ written (log (run w session)) = written (log w)
          ∧ errors (log (run w session)) = errors (log w)) as [_ H];
    [|exact H].
  apply (run_invariant
           (λ w', storage w' = None
                  ∧ fs w' = fs w
                  ∧ written (log w') = written (log w)
                  ∧ errors (log w') = errors (log w))).
  - intros w' (Hnone & Hfs & Hwritten & Herrors). split_and!; [done|done| |].
    + cbn [log call]. by rewrite written_app, app_nil_r.
    + cbn [log call]. by rewrite errors_app, app_nil_r.
  - intros w' marks uri (Hnone & Hfs & Hwritten & Herrors).
    rewrite saveMarks_without_storage by done.
    split_and!; [done|done| |].
    + cbn [log call with_fileMarks]. by rewrite written_app, app_nil_r.
    + cbn [log call with_fileMarks]. by rewrite errors_app, app_nil_r.
  - done.
Qed.

Lemma sessions_without_storage_file_witness :
  (storageFile (fresh (Some "") full_disk None) = None
   ∨ storageFile (fresh (Some "") full_disk None) = Some "")
  ∧ errors (log (run (fresh (Some "") full_disk None)
                     [ Accept a_txt (Some item_READ) None 3;
                       ClearMark (Some a_txt) ]))
    = [].
Proof.
  assert (storageFile (fresh (Some "") full_disk None) = None
          ∨ storageFile (fresh (Some "") full_disk None) = Some "")
    as Hstorage by (right; reflexivity).
  split; [exact Hstorage|].
  destruct (sessions_without_storage_file
              (fresh (Some "") full_disk None)
              [ Accept a_txt (Some item_READ) None 3; ClearMark (Some a_txt) ]
              Hstorage) as (_ & _ & Herrors).
  exact Herrors.
Defined.

(** X6: on a disk that takes writes, a session that starts with the storage
    file holding the document of the store ends so, and shows no error
    message: after every mark and every clear the file is the document of
    the store of that moment. *)
Theorem sessions_keep_the_file_in_sync (w : World) (session : list Callback)
    (file : string) :
  storageFile w = Some file →
  file ≠ "" →
  write_error (fs w) = None →
  synced w file →
  synced (run w session) file
  ∧ errors (log (run w session)) = errors (log w).
Proof.
  intros Hfile Hne Hwrite Hsynced.
  pose proof (storage_Some w file Hfile Hne) as Hstorage.
  assert (storage (run w session) = Some file
          ∧ write_error (fs (run w session)) = None
          ∧ synced (run w session) file
          ∧ errors (log (run w session)) = errors (log w)) as (_ & _ & H);
    [|exact H].
  apply (run_invariant
           (λ w', storage w' = Some file
                  ∧ write_error (fs w') = None
                  ∧ synced w' file
                  ∧ errors (log w') = errors (log w))).
  - intros w' (Hs & Hw & Hsync & Herrors). split_and!; [done..|].
    cbn [log call]. by rewrite errors_app, app_nil_r.
  - intros w' marks uri (Hs & Hw & Hsync & Herrors).
    rewrite storage_saveMarks, write_error_saveMarks.
    split_and!; [done|done| |].
    + unfold synced. rewrite fs_saveMarks, fileMarks_saveMarks.
      change (storage (call (with_fileMarks w' marks) _)) with (storage w').
      cbn [fs call with_fileMarks fileMarks]. rewrite Hs, Hw.
      cbn [files]. apply lookup_insert_eq.
    + rewrite log_saveMarks.
      change (storage (call (with_fileMarks w' marks) _)) with (storage w').
      cbn [fs call with_fileMarks log]. rewrite Hs, Hw.
      rewrite !errors_app. cbn [errors omap]. by rewrite !app_nil_r.
  - done.
Qed.

Lemma sessions_keep_the_file_in_sync_witness :
  storageFile (saveMarks started) = Some "/storage/fileMarks.json"
  ∧ "/storage/fileMarks.json" ≠ ""
  ∧ write_error (fs (saveMarks started)) = None
  ∧ synced (saveMarks started) "/storage/fileMarks.json"
  ∧ synced (run (saveMarks started)
                [ Accept a_txt (Some item_READ) None 3; ClearMark None ])
           "/storage/fileMarks.json".
Proof.
  assert ("/storage/fileMarks.json" ≠ "") as Hne by discriminate.
  assert (synced (saveMarks started) "/storage/fileMarks.json") as Hsynced
    by (vm_compute; reflexivity).
  split; [reflexivity|]. split; [exact Hne|]. split; [reflexivity|].
  split; [exact Hsynced|].
  destruct (sessions_keep_the_file_in_sync
              (saveMarks started)
              [ Accept a_txt (Some item_READ) None 3; ClearMark None ]
              "/storage/fileMarks.json" eq_refl Hne eq_refl Hsynced)
    as [Hend _].
  exact Hend.
Defined.

(** ** Saving *)

Lemma document_of_members (marks : gmap string FileMark) :
  document_of marks = JObj (FileMark_json <$> delete "__proto__" marks).
Proof. unfold document_of. by rewrite data_of_saveMarks. Qed.

(** X7: a save that the disk takes replaces the storage file by a document
    with one entry per record of the store, bar the record of the key
    "__proto__", each made of the three fields of the record; it changes
    nothing else and logs the write alone. *)
Theorem save_writes_the_store (w : World) (file : string) :
  storageFile w = Some file →
  file ≠ "" →
  write_error (fs w) = None →
  saveMarks w
  = {| fileMarks := fileMarks w; storageFile := storageFile w;
       fs := {| files :=
                  <[file := Doc (JObj (FileMark_json
                                         <$> delete "__proto__" (fileMarks w)))]>
                    (files (fs w));
                write_error := None; read_error := read_error (fs w) |};
       activeTextEditor := activeTextEditor w;
       log := (log w
               ++ [fs_writeFileSync file
                     (JObj (FileMark_json
                              <$> delete "__proto__" (fileMarks w)))])%list |}.
Proof.
  intros Hfile Hne Hwrite. rewrite <- document_of_members.
  unfold saveMarks, writeFileSync, document_of.
  rewrite (storage_Some w file Hfile Hne). cbn [fs call].
  by rewrite Hwrite.
Qed.

Lemma save_writes_the_store_witness :
  storageFile marked_twice = Some "/storage/fileMarks.json"
  ∧ "/storage/fileMarks.json" ≠ ""
  ∧ write_error (fs marked_twice) = None
  ∧ files (fs (saveMarks marked_twice)) !! "/storage/fileMarks.json"
    = Some (Doc (JObj (FileMark_json
                         <$> delete "__proto__" (fileMarks marked_twice)))).
Proof.
  assert ("/storage/fileMarks.json" ≠ "") as Hne by discriminate.
  split; [reflexivity|]. split; [exact Hne|]. split; [reflexivity|].
  rewrite (save_writes_the_store marked_twice "/storage/fileMarks.json"
             eq_refl Hne eq_refl).
  apply lookup_insert_eq.
Defined.



(** ** Marking, seen from the host *)

(** X9: an accepted mark fires the event of the target Uri first and saves
    second: the log grows by that event, then by the write of the document
    of the new store when a storage file is set, then by the error message
    when that write fails; a quick pick accepted without a selection does
    nothing. *)
Theorem accept_fires_then_saves (w : World) (fileUri : Uri)
    (item : MarkAsQuickPickItem) (note : option string) (now : Z) :
  log (onDidAccept w fileUri (Some item) note now)
  = (log w
     ++ onDidChangeFileDecorations_fire (one_uri fileUri)
     :: match storage w with
        | None => []
        | Some file =>
          fs_writeFileSync file
            (document_of (fileMarks (onDidAccept w fileUri (Some item) note now)))
          :: match write_error (fs w) with
             | Some e => [showErrorMessage ("无法保存文件标记: " ++ e)%string]
             | None => []
             end
        end)%list
  ∧ onDidAccept w fileUri None note now = w.
Proof.
  split; [|done].
  rewrite fileMarks_onDidAccept, onDidAccept_Some, log_saveMarks.
  cbn [log call with_fileMarks fs fileMarks].
  change (storage (call (with_fileMarks w _) _)) with (storage w).
  by rewrite <- app_assoc.
Qed.

(** X10: right after a mark is accepted, the decoration of the marked path
    is the one of the chosen kind: its badge, its colour token, and its
    tooltip followed by ": " and the note when a non-empty note was typed. *)
Theorem marked_file_is_decorated (w : World) (fileUri : Uri)
    (item : MarkAsQuickPickItem) (note : option string) (now : Z) :
  provideFileDecoration
    (fileMarks (onDidAccept w fileUri (Some item) note now)) fileUri
  = Some {| badge := badge_of (value item);
            tooltip := if decide (default "" note = "")
                       then tooltip_base (value item)
                       else tooltip_base (value item) ++ ": " ++ default "" note;
            color := Some {| id := color_token (value item) |} |}.
Proof.
  unfold provideFileDecoration. cbv zeta. rewrite lookup_onDidAccept.
  simpl. rewrite truthy_spec.
  destruct (value item); case_bool_decide; case_decide; done.
Qed.

(** X11: the quick pick shows for each kind what the explorer will show:
    the label of each of its entries is the badge, a space and the tooltip
    of the decoration that a file gets when the entry is accepted without a
    note. *)
Theorem menu_label_is_the_decoration (w : World) (fileUri : Uri)
    (item : MarkAsQuickPickItem) (now : Z) :
  item ∈ quickPick_items →
  ∃ d,
    provideFileDecoration
      (fileMarks (onDidAccept w fileUri (Some item) None now)) fileUri
    = Some d
    ∧ label item = badge d ++ " " ++ tooltip d.
Proof.
  intros Hitem. unfold provideFileDecoration. cbv zeta.
  rewrite lookup_onDidAccept. unfold quickPick_items in Hitem.
  repeat (apply elem_of_cons in Hitem as [->|Hitem];
          [eexists; split; reflexivity|]).
  by apply elem_of_nil in Hitem.
Qed.

Lemma menu_label_is_the_decoration_witness :
  item_PARTIAL ∈ quickPick_items
  ∧ ∃ d,
      provideFileDecoration
        (fileMarks (onDidAccept started b_txt (Some item_PARTIAL) None 9)) b_txt
      = Some d
      ∧ label item_PARTIAL = badge d ++ " " ++ tooltip d.
Proof.
  assert (item_PARTIAL ∈ quickPick_items) as Hitem.
  { unfold quickPick_items. apply elem_of_cons. right.
    apply elem_of_cons. by left. }
  split; [exact Hitem|].
  exact (menu_label_is_the_decoration started b_txt item_PARTIAL 9 Hitem).
Defined.

(** X12: the decoration shows the kind and the note of a record and nothing
    else: two marked paths get the same decoration exactly when their
    records have the same kind and the same note, whatever the paths and the
    timestamps are. *)
Theorem decoration_tells_kind_and_note
    (marks1 marks2 : gmap string FileMark) (uri1 uri2 : Uri)
    (mark1 mark2 : FileMark) :
  marks1 !! fsPath uri1 = Some mark1 →
  marks2 !! fsPath uri2 = Some mark2 →
  provideFileDecoration marks1 uri1 = provideFileDecoration marks2 uri2
  ↔ type mark1 = type mark2 ∧ note mark1 = note mark2.
Proof.
  intros H1 H2. unfold provideFileDecoration. rewrite H1, H2.
  destruct mark1 as [t1 n1 ts1], mark2 as [t2 n2 ts2]. cbn [type note].
  split.
  - destruct t1, t2, n1 as [|a1 n1], n2 as [|a2 n2]; simpl;
      intros Heq; try discriminate Heq; try done;
      injection Heq; intros; by subst.
  - by intros [-> ->].
Qed.

Lemma decoration_tells_kind_and_note_witness :
  ({[ "/a.txt" := looks_good ]} : gmap string FileMark) !! fsPath a_txt
  = Some looks_good
  ∧ fileMarks marked_twice !! fsPath a_txt
    = Some {| type := READ; note := "looks good"; timestamp := 2 |}
  ∧ provideFileDecoration {[ "/a.txt" := looks_good ]} a_txt
    = provideFileDecoration (fileMarks marked_twice) a_txt.
Proof.
  assert (fileMarks marked_twice !! fsPath a_txt
          = Some {| type := READ; note := "looks good"; timestamp := 2 |})
    as Htwice by (vm_compute; reflexivity).
  assert (({[ "/a.txt" := looks_good ]} : gmap string FileMark) !! fsPath a_txt
          = Some looks_good) as Hone by reflexivity.
  split; [exact Hone|]. split; [exact Htwice|].
  apply (decoration_tells_kind_and_note
           {[ "/a.txt" := looks_good ]} (fileMarks marked_twice) a_txt a_txt
           looks_good {| type := READ; note := "looks good"; timestamp := 2 |}
           Hone Htwice).
  split; reflexivity.
Defined.

(** ** Loading *)

(** X13: a load that cannot get a document out of the storage file keeps
    the store as it is: without the file nothing happens at all; with a
    file that cannot be read, or whose text is not JSON, the one effect is
    the error message, and the store is not emptied. *)
Theorem load_failure_keeps_the_store (w : World) (file : string) :
  storageFile w = Some file →
  file ≠ "" →
  (files (fs w) !! file = None → loadMarks w = Some w)
  ∧ (∀ e, is_Some (files (fs w) !! file) →
          read_error (fs w) = Some e →
          loadMarks w
          = Some (call w (showErrorMessage ("无法加载文件标记: " ++ e))))
  ∧ (∀ e, read_error (fs w) = None →
          files (fs w) !! file = Some (NotJson e) →
          loadMarks w
          = Some (call w (showErrorMessage ("无法加载文件标记: " ++ e)))).
Proof.
  intros Hfile Hne. unfold loadMarks, existsSync, readFileSync.
  rewrite (storage_Some w file Hfile Hne). split_and!.
  - intros Hmissing. rewrite Hmissing.
    by rewrite bool_decide_eq_false_2 by by intros [? ?].
  - intros e Hexists Hread. by rewrite bool_decide_eq_true_2, Hread.
  - intros e Hread Hdata. rewrite Hdata, Hread.
    by rewrite bool_decide_eq_true_2 by by eexists.
Qed.

Lemma load_failure_keeps_the_store_witness :
  storageFile on_full_disk = Some "/storage/fileMarks.json"
  ∧ "/storage/fileMarks.json" ≠ ""
  ∧ loadMarks on_full_disk = Some on_full_disk.
Proof.
  assert ("/storage/fileMarks.json" ≠ "") as Hne by discriminate.
  split; [reflexivity|]. split; [exact Hne|].
  destruct (load_failure_keeps_the_store on_full_disk
              "/storage/fileMarks.json" eq_refl Hne) as [Hmissing _].
  apply Hmissing. reflexivity.
Defined.



Lemma records_only_json (marks : gmap string FileMark) :
  records_only (JObj (FileMark_json <$> marks)).
Proof.
  intros entries [= <-]. apply Forall_forall.
  intros [k v] Hin%elem_of_map_to_list.
  apply lookup_fmap_Some in Hin as (mark & <- & _).
  cbn [snd]. by rewrite as_FileMark_json.
Qed.

(** X15: a load only reads.  Whether the storage file is missing, cannot
    be read, holds text that is not JSON, or holds a document all of whose
    entries are mark records, the load returns, with the disk and the
    storage path as before, no write attempted and no decoration event
    fired; at most one error message is shown. *)
Theorem load_only_reads (w : World) :
  (∀ file j, storageFile w = Some file →
             files (fs w) !! file = Some (Doc j) → records_only j) →
  ∃ w',
    loadMarks w = Some w'
    ∧ fs w' = fs w
    ∧ storageFile w' = storageFile w
    ∧ written (log w') = written (log w)
    ∧ fired (log w') = fired (log w)
    ∧ (log w' = log w
       ∨ ∃ message, log w' = (log w ++ [showErrorMessage message])%list).
Proof.
  intros Hrecords. unfold loadMarks.
  destruct (storage w) as [file|] eqn:Hstorage; [|exists w; auto 10].
  assert (storageFile w = Some file) as Hfile.
  { unfold storage in Hstorage. destruct (storageFile w) as [f|]; [|done].
    destruct (truthy f); [|done]. by injection Hstorage as ->. }
  destruct (negb _); [exists w; auto 10|].
  assert (∀ w0 message,
            fs w0 = fs w → storageFile w0 = storageFile w → log w0 = log w →
            ∃ w',
              Some (call w0 (showErrorMessage message)) = Some w'
              ∧ fs w' = fs w ∧ storageFile w' = storageFile w
              ∧ written (log w') = written (log w)
              ∧ fired (log w') = fired (log w)
              ∧ (log w' = log w
                 ∨ ∃ message,
                     log w' = (log w ++ [showErrorMessage message])%list))
    as Hfailed.
  { intros w0 message Hfs Hsf Hlog. eexists. split; [done|].
    cbn [fs storageFile log call].
    rewrite Hlog, written_app, fired_app, !app_nil_r. eauto 10. }
  unfold readFileSync.
  destruct (read_error (fs w)) as [e|]; [by apply Hfailed|].
  destruct (files (fs w) !! file) as [[e|j]|] eqn:Hdata;
    [by apply Hfailed| |by apply Hfailed].
  cbn [JSON_parse]. cbv zeta.
  destruct (Object_entries j) as [entries|] eqn:Hentries; [|by apply Hfailed].
  destruct (set_entries_is_Some entries (fileMarks (with_fileMarks w ∅)))
    as [loaded Hloaded].
  { by apply (Hrecords file j). }
  rewrite Hloaded. eexists. split; [done|]. cbn. auto 10.
Qed.

Lemma load_only_reads_witness :
  (∀ file j,
     storageFile (restarted (saveMarks marked_twice)) = Some file →
     files (fs (restarted (saveMarks marked_twice))) !! file = Some (Doc j) →
     records_only j)
  ∧ ∃ w',
      loadMarks (restarted (saveMarks marked_twice)) = Some w'
      ∧ fs w' = fs (restarted (saveMarks marked_twice)).
Proof.
  assert (∀ file j,
            storageFile (restarted (saveMarks marked_twice)) = Some file →
            files (fs (restarted (saveMarks marked_twice))) !! file
            = Some (Doc j) →
            records_only j) as Hrecords.
  { intros file j Hfile Hdata.
    assert (file = "/storage/fileMarks.json") as ->
      by (by injection Hfile as <-).
    assert (files (fs (restarted (saveMarks marked_twice)))
              !! "/storage/fileMarks.json"
            = Some (Doc (JObj (FileMark_json <$> fileMarks marked_twice))))
      as Hsaved by (vm_compute; reflexivity).
    rewrite Hsaved in Hdata. injection Hdata as <-.
    apply records_only_json. }
  split; [exact Hrecords|].
  destruct (load_only_reads (restarted (saveMarks marked_twice)) Hrecords)
    as (w' & Hload & Hfs & _).
  exists w'. by split.
Defined.

(** X16: a storage file whose document has no entries empties the store: a
    number, a boolean, the empty string, the empty array and the empty
    object do so silently; [null] does so too, and shows the error of the
    failed [Object.entries] on top. *)
Theorem load_of_document_without_entries (w : World) (file : string)
    (j : Json) :
  storageFile w = Some file →
  file ≠ "" →
  read_error (fs w) = None →
  files (fs w) !! file = Some (Doc j) →
  (Object_entries j = Some [] → loadMarks w = Some (with_fileMarks w ∅))
  ∧ (j = JNull →
     loadMarks w
     = Some (call (with_fileMarks w ∅)
               (showErrorMessage
                  ("无法加载文件标记: "
                   ++ "TypeError: Cannot convert undefined or null to object")))).
Proof.
  intros Hfile Hne Hread Hdata. unfold loadMarks, existsSync, readFileSync.
  rewrite (storage_Some w file Hfile Hne), Hdata, Hread.
  rewrite bool_decide_eq_true_2 by by eexists.
  cbn [negb JSON_parse]. cbv zeta. split.
  - by intros ->.
  - by intros ->.
Qed.

Lemma load_of_document_without_entries_witness :
  storageFile (with_fileMarks (started_on (disk_with "/storage/fileMarks.json"
                                             (JArr [])))
                              {[ "/a.txt" := looks_good ]})
  = Some "/storage/fileMarks.json"
  ∧ "/storage/fileMarks.json" ≠ ""
  ∧ Object_entries (JArr []) = Some []
  ∧ fileMarks
      <$> loadMarks (with_fileMarks
                       (started_on (disk_with "/storage/fileMarks.json"
                                      (JArr [])))
                       {[ "/a.txt" := looks_good ]})
    = Some ∅.
Proof.
  assert ("/storage/fileMarks.json" ≠ "") as Hne by discriminate.
  split; [reflexivity|]. split; [exact Hne|]. split; [reflexivity|].
  destruct (load_of_document_without_entries
              (with_fileMarks (started_on (disk_with "/storage/fileMarks.json"
                                             (JArr [])))
                              {[ "/a.txt" := looks_good ]})
              "/storage/fileMarks.json" (JArr [])
              eq_refl Hne eq_refl eq_refl) as [Hempty _].
  rewrite (Hempty eq_refl). reflexivity.
Defined.

(** X17: a storage file that holds an object of mark records loads to
    exactly the store of these records, key for key (the key "__proto__"
    included), whatever the store held before, and nothing is shown to the
    user. *)
Theorem load_reads_what_the_file_says (w : World) (file : string)
    (marks : gmap string FileMark) :
  storageFile w = Some file →
  file ≠ "" →
  read_error (fs w) = None →
  files (fs w) !! file = Some (Doc (JObj (FileMark_json <$> marks))) →
  loadMarks w = Some (with_fileMarks w marks).
Proof.
  intros Hfile Hne Hread Hdata. unfold loadMarks, existsSync, readFileSync.
  rewrite (storage_Some w file Hfile Hne), Hdata, Hread.
  rewrite bool_decide_eq_true_2 by by eexists.
  cbn [negb JSON_parse Object_entries]. cbv zeta.
  cbn [fileMarks with_fileMarks]. by rewrite set_entries_of_json.
Qed.

Lemma load_reads_what_the_file_says_witness :
  storageFile
    (with_fileMarks
       (started_on (disk_with "/storage/fileMarks.json"
                      (JObj (FileMark_json
                               <$> {[ "__proto__" := looks_good ]}))))
       {[ "/b.txt" := looks_good ]})
  = Some "/storage/fileMarks.json"
  ∧ "/storage/fileMarks.json" ≠ ""
  ∧ fileMarks
      <$> loadMarks
            (with_fileMarks
               (started_on (disk_with "/storage/fileMarks.json"
                              (JObj (FileMark_json
                                       <$> {[ "__proto__" := looks_good ]}))))
               {[ "/b.txt" := looks_good ]})
    = Some {[ "__proto__" := looks_good ]}.
Proof.
  assert ("/storage/fileMarks.json" ≠ "") as Hne by discriminate.
  split; [reflexivity|]. split; [exact Hne|].
  rewrite (load_reads_what_the_file_says
             (with_fileMarks
                (started_on (disk_with "/storage/fileMarks.json"
                               (JObj (FileMark_json
                                        <$> {[ "__proto__" := looks_good ]}))))
                {[ "/b.txt" := looks_good ]})
             "/storage/fileMarks.json" {[ "__proto__" := looks_good ]}
             eq_refl Hne eq_refl (lookup_insert_eq _ _ _)).
  reflexivity.
Defined.

(** X18: loading a storage file and saving again keeps the records: when
    the file holds an object of mark records without the key "__proto__"
    and the disk takes the write, the load gives the store of these
    records, and the file that a save right after it leaves loads, in a new
    host, to that same store.  (The text of the file may be written anew;
    the records it holds are the same.) *)
Theorem load_then_save_keeps_the_records (w : World) (file : string)
    (marks : gmap string FileMark) :
  storageFile w = Some file →
  file ≠ "" →
  read_error (fs w) = None →
  write_error (fs w) = None →
  files (fs w) !! file = Some (Doc (JObj (FileMark_json <$> marks))) →
  marks !! "__proto__" = None →
  loadMarks w = Some (with_fileMarks w marks)
  ∧ fileMarks
      <$> loadMarks (restarted (saveMarks (with_fileMarks w marks)))
    = Some marks.
Proof.
  intros Hfile Hne Hread Hwrite Hdata Hproto. split.
  - unfold loadMarks, existsSync, readFileSync.
    rewrite (storage_Some w file Hfile Hne), Hdata, Hread.
    rewrite bool_decide_eq_true_2 by by eexists.
    cbn [negb JSON_parse Object_entries]. cbv zeta.
    cbn [fileMarks with_fileMarks]. by rewrite set_entries_of_json.
  - rewrite (save_then_load (with_fileMarks w marks) file) by done.
    cbn [fileMarks with_fileMarks]. by rewrite delete_id.
Qed.

Lemma load_then_save_keeps_the_records_witness :
  files (fs (restarted (saveMarks marked_twice))) !! "/storage/fileMarks.json"
  = Some (Doc (JObj (FileMark_json <$> fileMarks marked_twice)))
  ∧ fileMarks marked_twice !! "__proto__" = None
  ∧ fileMarks
      <$> loadMarks
            (restarted
               (saveMarks (with_fileMarks (restarted (saveMarks marked_twice))
                                          (fileMarks marked_twice))))
    = Some (fileMarks marked_twice).
Proof.
  assert ("/storage/fileMarks.json" ≠ "") as Hne by discriminate.
  assert (files (fs (restarted (saveMarks marked_twice)))
            !! "/storage/fileMarks.json"
          = Some (Doc (JObj (FileMark_json <$> fileMarks marked_twice))))
    as Hdata by (vm_compute; reflexivity).
  assert (fileMarks marked_twice !! "__proto__" = None) as Hkey
    by (vm_compute; reflexivity).
  split; [exact Hdata|]. split; [exact Hkey|].
  destruct (load_then_save_keeps_the_records
              (restarted (saveMarks marked_twice)) "/storage/fileMarks.json"
              (fileMarks marked_twice) eq_refl Hne eq_refl eq_refl Hdata Hkey)
    as [_ Hagain].
  exact Hagain.
Defined.

(** X19: marks survive a restart: on a disk that takes the write and gives
    it back, a store without the key "__proto__" that is saved is the store
    a new host has after its load, and that load shows no message. *)
Theorem restart_restores_the_store (w : World) (file : string) :
  storageFile w = Some file →
  file ≠ "" →
  write_error (fs w) = None →
  read_error (fs w) = None →
  fileMarks w !! "__proto__" = None →
  loadMarks (restarted (saveMarks w))
  = Some (with_fileMarks (restarted (saveMarks w)) (fileMarks w)).
Proof.
  intros Hfile Hne Hwrite Hread Hkey.
  unfold saveMarks, writeFileSync. rewrite (storage_Some w file Hfile Hne).
  cbn [fs call]. rewrite Hwrite, data_of_saveMarks, (delete_id _ _ Hkey).
  unfold loadMarks, restarted, fresh, with_fs, call, existsSync, readFileSync.
  rewrite (storage_Some _ file) by done.
  cbn [storageFile fs files read_error activeTextEditor].
  rewrite Hread, lookup_insert_eq.
  rewrite bool_decide_eq_true_2 by by eexists.
  cbn [negb JSON_parse JSON_stringify Object_entries own with_fileMarks
       fileMarks].
  by rewrite set_entries_of_json.
Qed.

Lemma restart_restores_the_store_witness :
  storageFile marked_twice = Some "/storage/fileMarks.json"
  ∧ "/storage/fileMarks.json" ≠ ""
  ∧ write_error (fs marked_twice) = None
  ∧ read_error (fs marked_twice) = None
  ∧ fileMarks marked_twice !! "__proto__" = None
  ∧ fileMarks <$> loadMarks (restarted (saveMarks marked_twice))
    = Some (fileMarks marked_twice).
Proof.
  assert ("/storage/fileMarks.json" ≠ "") as Hne by discriminate.
  assert (fileMarks marked_twice !! "__proto__" = None) as Hkey
    by (vm_compute; reflexivity).
  split; [reflexivity|]. split; [exact Hne|]. split; [reflexivity|].
  split; [reflexivity|]. split; [exact Hkey|].
  rewrite (restart_restores_the_store marked_twice "/storage/fileMarks.json"
             eq_refl Hne eq_refl eq_refl Hkey).
  reflexivity.
Defined.

(** ** Commands without a target *)

(** X20: with no editor active, commands invoked without a Uri change
    nothing: after any number of them the store and the disk are as before,
    no event is fired and no write attempted, and the log has grown by one
    warning "未选择文件" for each command. *)
Theorem commands_without_target_only_warn (w : World)
    (session : list Callback) :
  activeTextEditor w = None →
  Forall (λ c, untargeted c = true) session →
  run w session
  = {| fileMarks := fileMarks w; storageFile := storageFile w; fs := fs w;
       activeTextEditor := activeTextEditor w;
       log := (log w
               ++ replicate (length session)
                    (showWarningMessage "未选择文件"))%list |}.
Proof.
  revert w. induction session as [|c session IH]; intros w Heditor Hsession.
  - cbn. rewrite app_nil_r. by destruct w.
  - inversion_clear Hsession as [|? ? Hc Hrest]. rewrite run_cons.
    assert (step w c = call w (showWarningMessage "未选择文件")) as ->.
    { destruct c as [[uri|]|? ? ? ?|[uri|]]; try discriminate Hc; cbn [step].
      - unfold markFileCommand, target. by rewrite Heditor.
      - unfold clearMarkCommand, target. by rewrite Heditor. }
    rewrite IH by done. cbn [fileMarks storageFile fs activeTextEditor log call].
    cbn [length replicate]. by rewrite <- app_assoc.
Qed.

Lemma commands_without_target_only_warn_witness :
  activeTextEditor marked_twice = None
  ∧ Forall (λ c, untargeted c = true) [ ClearMark None; MarkFile None ]
  ∧ fileMarks (run marked_twice [ ClearMark None; MarkFile None ])
    = fileMarks marked_twice.
Proof.
  assert (Forall (λ c, untargeted c = true) [ ClearMark None; MarkFile None ])
    as Hsession by (repeat constructor).
  split; [reflexivity|]. split; [exact Hsession|].
  rewrite (commands_without_target_only_warn marked_twice
             [ ClearMark None; MarkFile None ] eq_refl Hsession).
  reflexivity.
Defined.

(** ** The class [MarkManager], further *)

(** X21: in the manager, a path reads back as the mark last set on it: its
    label, the colour of that label and its note (the empty string when
    none was given); this holds for every path, the path "__proto__"
    included, and a second [setMark] on the path replaces the first. *)
Theorem MarkManager_set_then_get (this : MarkManager.t)
    (filePath label1 label2 : string) (note1 note2 : option string) :
  MarkManager.getMark (MarkManager.setMark this filePath label1 note1) filePath
  = MarkManager.object
      {| MarkManager.label := label1;
         MarkManager.color := MarkManager.getLabelColor label1;
         MarkManager.note := default "" note1 |}
  ∧ MarkManager.getMark
      (MarkManager.setMark (MarkManager.setMark this filePath label1 note1)
                           filePath label2 note2) filePath
    = MarkManager.object
        {| MarkManager.label := label2;
           MarkManager.color := MarkManager.getLabelColor label2;
           MarkManager.note := default "" note2 |}
  ∧ MarkManager.setMark (MarkManager.setMark this filePath label1 note1)
                        filePath label2 note2
    = MarkManager.setMark this filePath label2 note2.
Proof.
  split_and!; [apply MarkManager_getMark_setMark..|].
  unfold MarkManager.setMark.
  destruct (String.eqb filePath "__proto__"); cbn; [done|].
  by rewrite insert_insert_eq.
Qed.

(** X22: [setMark] on one path does not change what another path reads as,
    provided the path set is not "__proto__"; setting "__proto__" leaves
    every path but "label", "color" and "note" reading as before. *)
Theorem MarkManager_setMark_other (this : MarkManager.t)
    (filePath other label : string) (note : option string) :
  other ≠ filePath →
  filePath ≠ "__proto__" ∨ other ∉ ["label"; "color"; "note"] →
  MarkManager.getMark (MarkManager.setMark this filePath label note) other
  = MarkManager.getMark this other.
Proof.
  intros Hother Hcase. unfold MarkManager.getMark, MarkManager.setMark.
  destruct (String.eqb_spec filePath "__proto__") as [->|Hproto];
    cbn [MarkManager.own MarkManager.prototype].
  - destruct Hcase as [|Hfields]; [done|].
    apply String.eqb_neq in Hother. rewrite Hother.
    destruct (MarkManager.own this !! other); [done|].
    assert (String.eqb other "label" = false
            ∧ String.eqb other "color" = false
            ∧ String.eqb other "note" = false) as (-> & -> & ->).
    { rewrite !String.eqb_neq. split_and!; intros ->; apply Hfields;
        repeat constructor. }
    by destruct (MarkManager.prototype this).
  - destruct (String.eqb other "__proto__"); [done|].
    by rewrite lookup_insert_ne.
Qed.

Lemma MarkManager_setMark_other_witness :
  "/a.txt" ≠ "__proto__"
  ∧ ("__proto__" ≠ "__proto__" ∨ "/a.txt" ∉ ["label"; "color"; "note"])
  ∧ MarkManager.getMark
      (MarkManager.setMark
         (MarkManager.setMark MarkManager.new "/a.txt" "❌ Unread" None)
         "__proto__" "🕗 Halfway" None) "/a.txt"
    = MarkManager.getMark
        (MarkManager.setMark MarkManager.new "/a.txt" "❌ Unread" None)
        "/a.txt".
Proof.
  assert ("/a.txt" ≠ "__proto__") as Hother by discriminate.
  assert ("__proto__" ≠ "__proto__" ∨ "/a.txt" ∉ ["label"; "color"; "note"])
    as Hcase.
  { right. intros Hin.
    repeat (apply elem_of_cons in Hin as [Hin|Hin]; [discriminate Hin|]).
    by apply elem_of_nil in Hin. }
  split; [exact Hother|]. split; [exact Hcase|].
  exact (MarkManager_setMark_other _ "__proto__" "/a.txt" "🕗 Halfway" None
           Hother Hcase).
Defined.

Lemma setMark_keeps_colours (this : MarkManager.t) (filePath label : string)
    (note : option string) :
  (∀ k m, MarkManager.own this !! k = Some m → coloured m) →
  (∀ m, MarkManager.prototype this = Some m → coloured m) →
  (∀ k m,
     MarkManager.own (MarkManager.setMark this filePath label note) !! k
     = Some m → coloured m)
  ∧ (∀ m,
       MarkManager.prototype (MarkManager.setMark this filePath label note)
       = Some m → coloured m).
Proof.
  intros Hown Hproto. unfold MarkManager.setMark.
  destruct (String.eqb filePath "__proto__");
    cbn [MarkManager.own MarkManager.prototype]; split.
  - exact Hown.
  - by intros m [= <-].
  - intros k m. rewrite lookup_insert. case_decide; [|by apply Hown].
    by intros [= <-].
  - exact Hproto.
Qed.

Lemma setMarks_keep_colours calls : ∀ this,
  (∀ k m, MarkManager.own this !! k = Some m → coloured m) →
  (∀ m, MarkManager.prototype this = Some m → coloured m) →
  (∀ k m, MarkManager.own (setMarks this calls) !! k = Some m → coloured m)
  ∧ (∀ m, MarkManager.prototype (setMarks this calls) = Some m → coloured m).
Proof.
  induction calls as [|[[p l] n] calls IH]; intros this Hown Hproto; [done|].
  cbn [setMarks foldl]. apply IH; by apply setMark_keeps_colours.
Qed.

(** X23: every mark the manager hands out carries the colour of its label:
    after any sequence of [setMark] calls on a new manager, a path that
    reads as a mark reads as one whose colour is [getLabelColor] of its
    label. *)
Theorem MarkManager_marks_are_coloured
    (calls : list (string * string * option string)) (filePath : string)
    (mark : MarkManager.Mark) :
  MarkManager.getMark (setMarks MarkManager.new calls) filePath
  = MarkManager.object mark →
  coloured mark.
Proof.
  destruct (setMarks_keep_colours calls MarkManager.new) as [Hown Hproto];
    [done..|].
  unfold MarkManager.getMark.
  destruct (String.eqb filePath "__proto__").
  - destruct (MarkManager.prototype _) as [m|] eqn:Hm; [|done].
    intros [= <-]. by apply Hproto.
  - destruct (MarkManager.own _ !! filePath) as [m|] eqn:Hm.
    + intros [= <-]. by eapply Hown.
    + destruct (MarkManager.prototype _) as [m|]; repeat case_match; done.
Qed.

Lemma MarkManager_marks_are_coloured_witness :
  MarkManager.getMark
    (setMarks MarkManager.new
       [ ("/a.txt", "❌ Unread", None); ("/a.txt", "✔️ Completed", Some "ok") ])
    "/a.txt"
  = MarkManager.object
      {| MarkManager.label := "✔️ Completed"; MarkManager.color := "#00ff00";
         MarkManager.note := "ok" |}
  ∧ coloured {| MarkManager.label := "✔️ Completed";
                MarkManager.color := "#00ff00"; MarkManager.note := "ok" |}.
Proof.
  assert (MarkManager.getMark
            (setMarks MarkManager.new
               [ ("/a.txt", "❌ Unread", None);
                 ("/a.txt", "✔️ Completed", Some "ok") ])
            "/a.txt"
          = MarkManager.object
              {| MarkManager.label := "✔️ Completed";
                 MarkManager.color := "#00ff00";
                 MarkManager.note := "ok" |}) as Hget
    by (vm_compute; reflexivity).
  split; [exact Hget|].
  exact (MarkManager_marks_are_coloured _ _ _ Hget).
Defined.

(** X24: for a path that has no mark of its own in a manager on which
    "__proto__" was never set, [MarkDecorationProvider] gives no decoration
    unless the path is "__proto__" or the name of a function of
    [Object.prototype]; for these it gives a decoration without badge and
    without tooltip. *)
Theorem MarkDecorationProvider_of_unmarked (this : MarkManager.t) (uri : Uri) :
  MarkManager.own this !! fsPath uri = None →
  MarkManager.prototype this = None →
  MarkManager.provideFileDecoration this uri
  = if bool_decide (fsPath uri = "__proto__"
                    ∨ fsPath uri ∈ MarkManager.Object_prototype_functions)
    then Some {| MarkManager.badge := None; MarkManager.tooltip := None;
                 MarkManager.theme :=
                   {| id := "editorGutter.modifiedBackground" |} |}
    else None.
Proof.
  intros Hown Hproto.
  unfold MarkManager.provideFileDecoration, MarkManager.getMark.
  rewrite Hown, Hproto.
  destruct (String.eqb_spec (fsPath uri) "__proto__") as [Hkey|Hkey].
  - by rewrite bool_decide_eq_true_2 by by left.
  - case_bool_decide as Hmember.
    + by rewrite bool_decide_eq_true_2 by by right.
    + rewrite bool_decide_eq_false_2; [done|]. by intros [?|?].
Qed.

Lemma MarkDecorationProvider_of_unmarked_witness :
  MarkManager.own MarkManager.new !! fsPath proto_uri = None
  ∧ MarkManager.prototype MarkManager.new = None
  ∧ MarkManager.provideFileDecoration MarkManager.new proto_uri
    = Some {| MarkManager.badge := None; MarkManager.tooltip := None;
              MarkManager.theme :=
                {| id := "editorGutter.modifiedBackground" |} |}.
Proof.
  split; [reflexivity|]. split; [reflexivity|].
  rewrite (MarkDecorationProvider_of_unmarked MarkManager.new proto_uri
             eq_refl eq_refl).
  reflexivity.
Defined.

(** ** Marks and clears together *)

(** X25: a mark followed by the clear of the same path leaves the store
    without a record for the path and otherwise as it was before the mark;
    when the path had no record before, the store is back to what it
    was. *)
Theorem mark_then_clear (w : World) (fileUri : Uri)
    (item : MarkAsQuickPickItem) (note : option string) (now : Z) :
  fileMarks
    (clearMarkCommand (onDidAccept w fileUri (Some item) note now)
                      (Some fileUri)).2
  = delete (fsPath fileUri) (fileMarks w)
  ∧ (fileMarks w !! fsPath fileUri = None →
     fileMarks
       (clearMarkCommand (onDidAccept w fileUri (Some item) note now)
                         (Some fileUri)).2
     = fileMarks w).
Proof.
  assert (fileMarks
            (clearMarkCommand (onDidAccept w fileUri (Some item) note now)
                              (Some fileUri)).2
          = delete (fsPath fileUri) (fileMarks w)) as Hstore.
  { rewrite (fileMarks_clearMarkCommand _ (Some fileUri) fileUri eq_refl).
    by rewrite fileMarks_onDidAccept, delete_insert_eq. }
  split; [exact Hstore|].
  intros Habsent. by rewrite Hstore, delete_id.
Qed.

Lemma run_snoc w session c : run w (session ++ [c]) = step (run w session) c.
Proof. unfold run. by rewrite foldl_app. Qed.

(** X26: every record in the store of a session that started from a new
    host was put there by an accepted mark of that session: it carries the
    kind of the entry chosen, the note typed (or the empty string) and the
    clock reading of that accept, and the accept was for its path. *)
Theorem records_come_from_accepts (file : option string) (disk : FileSystem)
    (editor : option Uri) (session : list Callback) (p : string)
    (record : FileMark) :
  fileMarks (run (fresh file disk editor) session) !! p = Some record →
  ∃ fileUri item note now,
    Accept fileUri (Some item) note now ∈ session
    ∧ fsPath fileUri = p
    ∧ record = {| type := value item; note := default "" note;
                  timestamp := now |}.
Proof.
  revert p record.
  induction session as [|c session IH] using rev_ind; intros p record.
  - cbn. by rewrite lookup_empty.
  - rewrite run_snoc.
    assert (fileMarks (run (fresh file disk editor) session) !! p = Some record →
            ∃ fileUri item note now,
              Accept fileUri (Some item) note now ∈ (session ++ [c])%list
              ∧ fsPath fileUri = p
              ∧ record = {| type := value item; note := default "" note;
                            timestamp := now |}) as Hbefore.
    { intros Hp. destruct (IH p record Hp) as (u & i & n & t & Hin & Hrest).
      exists u, i, n, t. split; [|done]. apply elem_of_app. by left. }
    destruct c as [uri|fileUri [item|] note now|uri]; cbn [step].
    + unfold markFileCommand. by destruct (target _ uri).
    + rewrite fileMarks_onDidAccept, note_or_empty_default, lookup_insert.
      case_decide as Hpath; [|done].
      intros [= <-]. exists fileUri, item, note, now.
      split; [|done]. apply elem_of_app. right. by apply list_elem_of_singleton.
    + done.
    + destruct (target (run (fresh file disk editor) session) uri)
        as [fileUri|] eqn:Htarget.
      * rewrite (fileMarks_clearMarkCommand _ _ _ Htarget), lookup_delete.
        by case_decide.
      * unfold clearMarkCommand. by rewrite Htarget.
Qed.

Lemma records_come_from_accepts_witness :
  fileMarks
    (run (fresh (Some "/storage/fileMarks.json") empty_disk None)
         [ Accept a_txt (Some item_UNREAD) (Some "") 1;
           Accept a_txt (Some item_READ) (Some "looks good") 2 ]) !! "/a.txt"
  = Some {| type := READ; note := "looks good"; timestamp := 2 |}
  ∧ ∃ fileUri item note now,
      Accept fileUri (Some item) note now
      ∈ [ Accept a_txt (Some item_UNREAD) (Some "") 1;
          Accept a_txt (Some item_READ) (Some "looks good") 2 ]
      ∧ fsPath fileUri = "/a.txt"
      ∧ {| type := READ; note := "looks good"; timestamp := 2 |}
        = {| type := value item; note := default "" note; timestamp := now |}.
Proof.
  assert (fileMarks
            (run (fresh (Some "/storage/fileMarks.json") empty_disk None)
                 [ Accept a_txt (Some item_UNREAD) (Some "") 1;
                   Accept a_txt (Some item_READ) (Some "looks good") 2 ])
            !! "/a.txt"
          = Some {| type := READ; note := "looks good"; timestamp := 2 |})
    as Hrecord by (vm_compute; reflexivity).
  split; [exact Hrecord|].
  exact (records_come_from_accepts _ _ _ _ _ _ Hrecord).
Defined.

(** ** Looking up a path that was never set, in [MarkManager] *)

(** C7 at the path "constructor" on a manager on which nothing was set:
    [MarkManager.getMark] does not answer [undefined] but the function that
    [Object.prototype] holds under that name, and [MarkDecorationProvider]
    answers with a decoration (without badge and tooltip) instead of
    [undefined]; the store of the extension, a [Map], answers [undefined]
    for the same path. *)
Theorem unset_constructor_is_not_absent :
  MarkManager.getMark MarkManager.new "constructor"
  = MarkManager.Object_prototype_function "constructor"
  ∧ MarkManager.getMark MarkManager.new "constructor" ≠ MarkManager.undefined
  ∧ MarkManager.provideFileDecoration MarkManager.new
      {| fsPath := "constructor" |}
    = Some {| MarkManager.badge := None; MarkManager.tooltip := None;
              MarkManager.theme :=
                {| id := "editorGutter.modifiedBackground" |} |}
  ∧ MarkManager.provideFileDecoration MarkManager.new
      {| fsPath := "constructor" |} ≠ None
  ∧ (∅ : gmap string FileMark) !! "constructor" = None
  ∧ provideFileDecoration ∅ {| fsPath := "constructor" |} = None.
Proof.
  split_and!; try reflexivity.
  - intros Heq. vm_compute in Heq. discriminate Heq.
  - intros Heq. vm_compute in Heq. discriminate Heq.
Qed.
